(** * Owner actions of the publish tool: signer routing, duplicate
    detection and sequence tracking

    A shallow embedding of [publish/src/command-utils/owner-actions.js].

    The four exported functions are [async] JavaScript functions that talk to
    collaborators living in other modules ([safe-utils], [multisig-utils],
    [ui-utils]), to the [ethers] library, to the console and to the process.
    They are embedded as finite interaction programs ([Prog]): every call to
    a collaborator is a node [Do c k] carrying the call and its arguments,
    every log line is a node [Log m k], and a program ends by returning a
    value, by throwing (a rejected promise) or by [process.exit()].  A
    program is run against an arbitrary stateful handler for the
    collaborators; the run yields the outcome, the final state of the
    outside world and the trace of everything the program did. *)

From Stdlib Require Import ZArith List String Bool Lia.
Import ListNotations.

Local Open Scope string_scope.
Local Open Scope Z_scope.

(** ** Data *)

(** A contract binding as this file uses it: an object with an [address]. *)
Record Contract : Type := mkContract { address : string }.

(** The wallet; only [wallet.address] is read here. *)
Record Wallet : Type := mkWallet { wallet_address : string }.

(** A staged (pending) transaction record: destination, encoded call data and
    the backend's sequence number. *)
Record PendingTx : Type := mkPendingTx {
  tx_to : string;
  tx_data : string;
  tx_nonce : Z
}.

(** [ethers.BigNumber] values are integers. *)
Definition BigNumber : Type := Z.

(** The bound of [ethers.BigNumber.from] on numbers: [0x1fffffffffffff]. *)
Definition MAX_SAFE : Z := 9007199254740991.

(** The object handed to [wallet.sendTransaction].  [gasLimit] is [None] when
    the property was never set on the object. *)
Record TxParams : Type := mkTxParams {
  params_to : string;
  params_gasPrice : BigNumber;
  params_data : string;
  params_gasLimit : option BigNumber
}.

(** What [wallet.sendTransaction] resolves to, and what [tx.wait()] and
    [submitMultisigTransaction] resolve to. *)
(** [params.gasLimit = ...] *)
Definition set_gasLimit (params : TxParams) (limit : BigNumber) : TxParams :=
  mkTxParams (params_to params) (params_gasPrice params) (params_data params)
             (Some limit).

Record TxResponse : Type := mkTxResponse { response_hash : string }.
Record Receipt : Type := mkReceipt { transactionHash : string }.

(** The [signerData] object.  A property that was never assigned reads as
    [undefined], here [None].  Numbers are integers; [None] also stands for
    the other empty values a fetch can produce. *)
Record SignerData : Type := mkSignerData {
  protocolDaoContract : option Contract;
  currentSafeNonce : option Z;
  lastNonce : option Z;
  multisigContract : option Contract;
  stagedTransactions : option (list PendingTx)
}.

(** [const signerData = {}] *)
Definition emptySignerData : SignerData :=
  mkSignerData None None None None None.

Definition set_protocolDaoContract (sd : SignerData) (c : Contract) : SignerData :=
  mkSignerData (Some c) (currentSafeNonce sd) (lastNonce sd)
               (multisigContract sd) (stagedTransactions sd).

Definition set_currentSafeNonce (sd : SignerData) (v : option Z) : SignerData :=
  mkSignerData (protocolDaoContract sd) v (lastNonce sd)
               (multisigContract sd) (stagedTransactions sd).

Definition set_lastNonce (sd : SignerData) (v : option Z) : SignerData :=
  mkSignerData (protocolDaoContract sd) (currentSafeNonce sd) v
               (multisigContract sd) (stagedTransactions sd).

Definition set_multisigContract (sd : SignerData) (c : Contract) : SignerData :=
  mkSignerData (protocolDaoContract sd) (currentSafeNonce sd) (lastNonce sd)
               (Some c) (stagedTransactions sd).

(** JavaScript truthiness of a number-or-undefined: [undefined] and [0] are
    falsy. *)
Definition truthy (v : option Z) : bool :=
  match v with
  | Some n => negb (n =? 0)
  | None => false
  end.

(** [const KIND = { safe: 'SAFE', legacy: 'LEGACY', eoa: 'EAO' }] *)
Module KIND.
Definition safe : string := "SAFE".
Definition legacy : string := "LEGACY".
Definition eoa : string := "EAO".
End KIND.

(** ** Calls to collaborators *)

(** One constructor per collaborator function that the embedded code calls,
    indexed by the type of the value the call yields. *)
Inductive Call : Type -> Type :=
(* safe-utils *)
| GetSafeInstance (providerUrl newOwner : string) : Call Contract
| GetSafeNonce (safeContract : Contract) : Call (option Z)
| GetSafeTransactions (network safeAddress : string) : Call (list PendingTx)
| SafeLatestSequence (safeContract : option Contract) (network : string) : Call Z
| SafeTransactionHash (safeContract : option Contract) (to data sender : string)
                      (nonce : Z) : Call string
| GetSafeSignature (privateKey providerUrl contractTxHash : string) : Call string
| SaveTransactionToApi (safeContract : option Contract) (network data : string)
                       (nonce : Z) (to sender transactionHash signature : string)
    : Call unit
(* multisig-utils *)
| GetMultisigInstance (providerUrl newOwner : string) : Call Contract
| GetMultisigTxCount (multisigContract : option Contract) : Call Z
| GetMultisigTransactionIds (network : string) (multisigContract : option Contract)
                            (from to : Z) (pending executed : bool)
    : Call (list PendingTx)
| MultisigPendingLookup (multisigContract : option Contract) : Call (list PendingTx)
| SubmitMultisigTransaction (multisigContract : option Contract) (network : string)
                            (wallet : Wallet) (to : string) (value : BigNumber)
                            (data gasPrice : string) (gasLimit : option Z)
    : Call Receipt
(* ethers and the wallet *)
| ParseUnits (value unit : string) : Call BigNumber
| WalletSendTransaction (wallet : Wallet) (params : TxParams) : Call TxResponse
| TxWait (tx : TxResponse) : Call Receipt.

(** Log lines: [console.log] through a chalk colour, and [logTx]. *)
Inductive Chalk : Type := gray | yellow.

Inductive LogEntry : Type :=
| ConsoleLog (colour : Chalk) (text : string)
| LogTx (receipt : Receipt).

(** A thrown value: a [TypeError] raised by the embedded code itself, an
    error thrown by an [ethers] conversion (with its code), or whatever a
    collaborator rejected with. *)
Inductive Error : Type :=
| TypeError (message : string)
| EthersError (code : string)
| Rejected (reason : string).

(** ** Programs *)

Inductive Prog (A : Type) : Type :=
| Ret (a : A)
| Throw (e : Error)
| Exit
| Log (m : LogEntry) (k : Prog A)
| Do {X : Type} (c : Call X) (k : X -> Prog A).

Arguments Ret {A} a.
Arguments Throw {A} e.
Arguments Exit {A}.
Arguments Log {A} m k.
Arguments Do {A X} c k.

Fixpoint bind {A B : Type} (p : Prog A) (f : A -> Prog B) : Prog B :=
  match p with
  | Ret a => f a
  | Throw e => Throw e
  | Exit => Exit
  | Log m k => Log m (bind k f)
  | Do c k => Do c (fun x => bind (k x) f)
  end.

(** [await f(...)], or a plain call of a synchronous collaborator. *)
Definition call {X : Type} (c : Call X) : Prog X := Do c Ret.

Definition log (m : LogEntry) : Prog unit := Log m (Ret tt).

Declare Scope prog_scope.
Delimit Scope prog_scope with prog.
Notation "x <- p ;; q" := (bind p (fun x => q))
  (at level 61, p at next level, right associativity) : prog_scope.
Notation "' pat <- p ;; q" := (bind p (fun x => match x with pat => q end))
  (at level 61, pat pattern, p at next level, right associativity) : prog_scope.
Notation "p ;; q" := (bind p (fun _ => q))
  (at level 61, right associativity) : prog_scope.
Local Open Scope prog_scope.

(** ** Running a program *)

Inductive Reply (X : Type) : Type :=
| Ok (x : X)
| Raise (e : Error).

Arguments Ok {X} x.
Arguments Raise {X} e.

Inductive Outcome (A : Type) : Type :=
| Returned (a : A)
| Thrown (e : Error)
| Exited.

Arguments Returned {A} a.
Arguments Thrown {A} e.
Arguments Exited {A}.

Inductive Event : Type :=
| Called {X : Type} (c : Call X)
| Logged (m : LogEntry).

(** The outside world: a state and the way each call is answered in it. *)
Definition Handler (W : Type) : Type := forall X : Type, Call X -> W -> Reply X * W.

Record Run (W A : Type) : Type := mkRun {
  outcome : Outcome A;
  world : W;
  trace : list Event
}.

Arguments mkRun {W A} outcome world trace.
Arguments outcome {W A} r.
Arguments world {W A} r.
Arguments trace {W A} r.

Definition after {W A : Type} (ev : Event) (r : Run W A) : Run W A :=
  mkRun (outcome r) (world r) (ev :: trace r).

Fixpoint run {W A : Type} (h : Handler W) (p : Prog A) (w : W) : Run W A :=
  match p with
  | Ret a => mkRun (Returned a) w []
  | Throw e => mkRun (Thrown e) w []
  | Exit => mkRun Exited w []
  | Log m k => after (Logged m) (run h k w)
  | Do c k =>
      match h _ c w with
      | (Ok x, w') => after (Called c) (run h (k x) w')
      | (Raise e, w') => mkRun (Thrown e) w' [Called c]
      end
  end.

(** ** Collaborators whose code is in other modules *)

(** [===] on strings. *)
Definition strict_eq (a b : string) : bool := String.eqb a b.
Infix "===" := strict_eq (at level 70, no associativity).

(** Does a staged entry carry exactly this destination and call data? *)
Definition same_call (target encodedData : string) (e : PendingTx) : bool :=
  (tx_to e === target) && (tx_data e === encodedData).

(** Modelled from the spec: [checkExistingPendingTx] of [safe-utils], which is
    not part of this file.  A candidate is a duplicate if some entry of the
    pending set matches both destination and encoded data exactly and that
    entry's sequence number is greater than or equal to the sequence number
    passed in.  An absent pending set has no entries, and no entry reaches an
    absent sequence number. *)
Definition checkExistingPendingTx (stagedTransactions : option (list PendingTx))
    (target encodedData : string) (currentSafeNonce : option Z) : bool :=
  match stagedTransactions, currentSafeNonce with
  | Some entries, Some current =>
      existsb (fun e => same_call target encodedData e && (current <=? tx_nonce e))
              entries
  | _, _ => false
  end.

(** Modelled from the spec: [getNewTransactionHash] of [safe-utils], which is
    not part of this file.  It computes the transaction hash the coordinating
    contract will recognise, binding destination, data, sender and the next
    sequence number; the next sequence number is one more than the larger of
    the sequence number passed in by the caller ([lastNonce], when there is
    one) and the sequence number last used according to the coordinating
    contract and its service. *)
Definition getNewTransactionHash (safeContract : option Contract)
    (data to sender network : string) (lastNonce : option Z) : Prog (string * Z) :=
  latest <- call (SafeLatestSequence safeContract network);;
  let newNonce :=
    match lastNonce with
    | Some tracked => Z.max tracked latest + 1
    | None => latest + 1
    end in
  txHash <- call (SafeTransactionHash safeContract to data sender newNonce);;
  Ret (txHash, newNonce).

(** Modelled from the spec: [checkMultisigExistingPendingTx] of
    [multisig-utils], which is not part of this file.  The legacy contract
    binding checks for an existing pending transaction given destination and
    encoded data; when no pending set is supplied it performs its own pending
    lookup.  The byte-exact pair of destination and data is the only matching
    key. *)
Definition checkMultisigExistingPendingTx (multisigContract : option Contract)
    (stagedTransactions : option (list PendingTx)) (target encodedData : string)
    : Prog bool :=
  pending <- match stagedTransactions with
             | Some entries => Ret entries
             | None => call (MultisigPendingLookup multisigContract)
             end;;
  Ret (existsb (same_call target encodedData) pending).

(** [ethers.BigNumber.from] on a number or [undefined].  A number at or
    beyond [MAX_SAFE] in magnitude throws a numeric fault (overflow);
    [undefined] is not a big-number value and throws as well.  Numbers here
    are integers, so the underflow fault on fractions does not arise. *)
Definition BigNumber_from (value : option Z) : Prog BigNumber :=
  match value with
  | Some n =>
      if (MAX_SAFE <=? n) || (n <=? - MAX_SAFE)
      then Throw (EthersError "NUMERIC_FAULT")
      else Ret n
  | None => Throw (EthersError "INVALID_ARGUMENT")
  end.

(** ** The four exported functions *)

Definition getSignerData (signerKind providerUrl newOwner : string)
    : Prog SignerData :=
  let signerData := emptySignerData in
  signerData <-
    (if signerKind === KIND.safe then
       safe <- call (GetSafeInstance providerUrl newOwner);;
       let signerData := set_protocolDaoContract signerData safe in
       fetched <- call (GetSafeNonce safe);;
       let signerData := set_currentSafeNonce signerData fetched in
       (if negb (truthy (currentSafeNonce signerData)) then
          log (ConsoleLog gray "Cannot access safe. Exiting.");;
          Exit
        else Ret tt);;
       log (ConsoleLog yellow
              ("Using Protocol DAO Safe contract at " ++ address safe));;
       Ret signerData
     else Ret signerData);;
  signerData <-
    (if signerKind === KIND.legacy then
       multisig <- call (GetMultisigInstance providerUrl newOwner);;
       Ret (set_multisigContract signerData multisig)
     else Ret signerData);;
  Ret signerData.

(** [signerData.protocolDaoContract.address]: reading a property of
    [undefined] throws. *)
Definition protocolDaoContract_address (signerData : SignerData) : Prog string :=
  match protocolDaoContract signerData with
  | Some safe => Ret (address safe)
  | None => Throw (TypeError "Cannot read property 'address' of undefined")
  end.

(** The result is [None] when the local variable is still [undefined]. *)
Definition getStagedTransactions (signerKind : string) (signerData : SignerData)
    (network : string) : Prog (option (list PendingTx)) :=
  let stagedTransactions : option (list PendingTx) := None in
  stagedTransactions <-
    (if signerKind === KIND.safe then
       safeAddress <- protocolDaoContract_address signerData;;
       txs <- call (GetSafeTransactions network safeAddress);;
       Ret (Some txs)
     else Ret stagedTransactions);;
  stagedTransactions <-
    (if signerKind === KIND.legacy then
       lastTx <- call (GetMultisigTxCount (multisigContract signerData));;
       txs <- call (GetMultisigTransactionIds network (multisigContract signerData)
                      0 lastTx true false);;
       Ret (Some txs)
     else Ret stagedTransactions);;
  Ret stagedTransactions.

(** The argument [stagedTransactions] is the caller's; the legacy branch reads
    [signerData.stagedTransactions] instead. *)
Definition txAlreadyExists (signerKind : string) (signerData : SignerData)
    (stagedTransactions_arg : option (list PendingTx)) (target encodedData : string)
    : Prog bool :=
  if signerKind === KIND.safe then
    Ret (checkExistingPendingTx stagedTransactions_arg target encodedData
           (currentSafeNonce signerData))
  else if signerKind === KIND.legacy then
    tx <- checkMultisigExistingPendingTx (multisigContract signerData)
            (stagedTransactions signerData) target encodedData;;
    Ret tx
  else
    Ret false.

(** The function has no [return] with a value: it resolves to [undefined],
    here [None], on every path.  The handle is mutated in place; the embedding
    returns it next to the result.  The one assignment to it is the last
    statement of the staging branch, so a run that throws leaves the handle as
    it was.  [gasLimit] is an integer number or [undefined], [gasPrice] a
    decimal string in gwei. *)
Definition acceptOwnershipBySigner (signerKind : string) (signerData : SignerData)
    (useFork : bool) (network privateKey providerUrl encodedData to : string)
    (wallet : Wallet) (gasLimit : option Z) (gasPrice : string)
    : Prog (option Receipt * SignerData) :=
  if (signerKind === KIND.safe) && negb useFork then
    '(txHash, newNonce) <-
       getNewTransactionHash (protocolDaoContract signerData) encodedData to
         (wallet_address wallet) network (lastNonce signerData);;
    sig <- call (GetSafeSignature privateKey providerUrl txHash);;
    call (SaveTransactionToApi (protocolDaoContract signerData) network
            encodedData newNonce to (wallet_address wallet) txHash sig);;
    Ret (None, set_lastNonce signerData (Some newNonce))
  else if signerKind === KIND.legacy then
    receipt <- call (SubmitMultisigTransaction (multisigContract signerData)
                       network wallet to 0 encodedData gasPrice gasLimit);;
    log (LogTx receipt);;
    Ret (None, signerData)
  else
    gasPriceWei <- call (ParseUnits gasPrice "gwei");;
    let params := mkTxParams to gasPriceWei encodedData None in
    params <-
      (if truthy gasLimit then
         limit <- BigNumber_from gasLimit;;
         Ret (set_gasLimit params limit)
       else Ret params);;
    tx <- call (WalletSendTransaction wallet params);;
    receipt <- call (TxWait tx);;
    log (LogTx receipt);;
    Ret (None, signerData).

(** ** Reading a run *)

(** Chain-submission primitives: sending a transaction from the wallet,
    waiting for its receipt, and the legacy contract's on-chain submit. *)
Definition chain_submission (ev : Event) : bool :=
  match ev with
  | Called c =>
      match c with
      | WalletSendTransaction _ _ => true
      | TxWait _ => true
      | SubmitMultisigTransaction _ _ _ _ _ _ _ _ => true
      | _ => false
      end
  | Logged _ => false
  end.

(** The steps of staging through the coordination service: deriving the next
    sequence number and the hash, signing, saving. *)
Definition staging_step (ev : Event) : bool :=
  match ev with
  | Called c =>
      match c with
      | SafeLatestSequence _ _ => true
      | SafeTransactionHash _ _ _ _ _ => true
      | GetSafeSignature _ _ _ => true
      | SaveTransactionToApi _ _ _ _ _ _ _ _ => true
      | _ => false
      end
  | Logged _ => false
  end.

(** The sequence numbers under which transactions were staged during a run. *)
Definition staged_nonce (ev : Event) : list Z :=
  match ev with
  | Called c =>
      match c with
      | SaveTransactionToApi _ _ _ nonce _ _ _ _ => [nonce]
      | _ => []
      end
  | Logged _ => []
  end.

Definition staged_nonces (t : list Event) : list Z := flat_map staged_nonce t.

(** How often the coordinating contract's sequence number was fetched. *)
Definition is_nonce_fetch (ev : Event) : bool :=
  match ev with
  | Called c => match c with GetSafeNonce _ => true | _ => false end
  | Logged _ => false
  end.

Definition nonce_fetches (t : list Event) : nat :=
  List.length (filter is_nonce_fetch t).

(** The handle after a call of [acceptOwnershipBySigner] on [before]: the
    mutated object when the call returned, the untouched one otherwise. *)
Definition handle_after {W : Type} (before : SignerData)
    (r : Run W (option Receipt * SignerData)) : SignerData :=
  match outcome r with
  | Returned (_, signerData) => signerData
  | _ => before
  end.

(** Order on tracked sequence numbers; nothing tracked yet is below
    everything. *)
Definition seq_le (a b : option Z) : Prop :=
  match a, b with
  | None, _ => True
  | Some _, None => False
  | Some x, Some y => x <= y
  end.

(** The session ended at set-up because the coordinating contract could not
    be read: the notice was printed and the process exited.  This is how the
    code realises the spec's [BackendUnreachable]. *)
Definition BackendUnreachable {W A : Type} (r : Run W A) : Prop :=
  outcome r = Exited /\
  In (Logged (ConsoleLog gray "Cannot access safe. Exiting.")) (trace r).

(** A staged entry with its sequence number replaced. *)
Definition renumber (f : Z -> Z) (e : PendingTx) : PendingTx :=
  mkPendingTx (tx_to e) (tx_data e) (f (tx_nonce e)).

(** The pending set the legacy binding checks against: the handle's own
    [stagedTransactions] when it has one, its own lookup otherwise. *)
Definition legacy_lookup {W : Type} (h : Handler W) (signerData : SignerData)
    (w : W) : Reply (list PendingTx) * W :=
  match stagedTransactions signerData with
  | Some entries => (Ok entries, w)
  | None => h _ (MultisigPendingLookup (multisigContract signerData)) w
  end.

(** The direct single-wallet execution: the tail of
    [acceptOwnershipBySigner] after both contract branches. *)
(** The parameters that reach the wallet when the gas limit, if one is
    attached, was accepted by [BigNumber.from]. *)
Definition direct_params (to : string) (gasPriceWei : BigNumber)
    (encodedData : string) (gasLimit : option Z) : TxParams :=
  mkTxParams to gasPriceWei encodedData
    (if truthy gasLimit then gasLimit else None).

(** A gas limit that [BigNumber.from] accepts: strictly inside the safe
    range.  No gas limit at all is never converted. *)
Definition convertible (gasLimit : option Z) : Prop :=
  match gasLimit with
  | Some limit => - MAX_SAFE < limit < MAX_SAFE
  | None => True
  end.

Definition direct_trace (gasPrice encodedData to : string) (wallet : Wallet)
    (gasLimit : option Z) (gasPriceWei : BigNumber) (tx : TxResponse)
    (receipt : Receipt) : list Event :=
  [ Called (ParseUnits gasPrice "gwei");
    Called (WalletSendTransaction wallet
              (direct_params to gasPriceWei encodedData gasLimit));
    Called (TxWait tx);
    Logged (LogTx receipt) ].

(** Which branch of [acceptOwnershipBySigner] a call takes first: the staging
    branch is guarded by [signerKind === KIND.safe && !useFork]. *)
Definition staging_route (signerKind : string) (useFork : bool) : bool :=
  (signerKind === KIND.safe) && negb useFork.

(** The receipts handed to [logTx] during a run. *)
Definition logged_receipt (ev : Event) : list Receipt :=
  match ev with
  | Logged (LogTx receipt) => [receipt]
  | _ => []
  end.

Definition logged_receipts (t : list Event) : list Receipt :=
  flat_map logged_receipt t.

(** Anything printed or logged. *)
Definition is_log (ev : Event) : bool :=
  match ev with
  | Logged _ => true
  | Called _ => false
  end.

(** The hashes handed to [getSafeSignature], and the hashes saved to the
    coordination service, during a run. *)
Definition signed_hash (ev : Event) : list string :=
  match ev with
  | Called c =>
      match c with
      | GetSafeSignature _ _ contractTxHash => [contractTxHash]
      | _ => []
      end
  | Logged _ => []
  end.

Definition saved_hash (ev : Event) : list string :=
  match ev with
  | Called c =>
      match c with
      | SaveTransactionToApi _ _ _ _ _ _ transactionHash _ => [transactionHash]
      | _ => []
      end
  | Logged _ => []
  end.

Definition signed_hashes (t : list Event) : list string := flat_map signed_hash t.
Definition saved_hashes (t : list Event) : list string := flat_map saved_hash t.

(** ** A concrete outside world for examples *)

Record MockWorld : Type := mkMockWorld {
  chain_nonce : option Z;
  service_latest : Z;
  legacy_pending : list PendingTx
}.

Definition mock : Handler MockWorld :=
  fun X c w =>
    match c in Call X return Reply X * MockWorld with
    | GetSafeInstance _ newOwner => (Ok (mkContract newOwner), w)
    | GetSafeNonce _ => (Ok (chain_nonce w), w)
    | GetSafeTransactions _ _ => (Ok [], w)
    | SafeLatestSequence _ _ => (Ok (service_latest w), w)
    | SafeTransactionHash _ _ _ _ _ => (Ok "0xhash", w)
    | GetSafeSignature _ _ _ => (Ok "0xsig", w)
    | SaveTransactionToApi _ _ _ nonce _ _ _ _ =>
        (Ok tt, mkMockWorld (chain_nonce w) nonce (legacy_pending w))
    | GetMultisigInstance _ newOwner => (Ok (mkContract newOwner), w)
    | GetMultisigTxCount _ => (Ok (Z.of_nat (List.length (legacy_pending w))), w)
    | GetMultisigTransactionIds _ _ _ _ _ _ => (Ok (legacy_pending w), w)
    | MultisigPendingLookup _ => (Ok (legacy_pending w), w)
    | SubmitMultisigTransaction _ _ _ _ _ _ _ _ => (Ok (mkReceipt "0xmined"), w)
    | ParseUnits value unit =>
        if (value === "20") && (unit === "gwei")
        then (Ok 20000000000, w)
        else (Raise (Rejected "invalid decimal value"), w)
    | WalletSendTransaction _ _ => (Ok (mkTxResponse "0xsent"), w)
    | TxWait tx => (Ok (mkReceipt (response_hash tx)), w)
    end.

Definition world0 : MockWorld := mkMockWorld (Some 3) 3 [].

(** The same world with the node unreachable: reading the coordinating
    contract's sequence number and sending from the wallet are rejected. *)
Definition mock_offline : Handler MockWorld :=
  fun X c w =>
    match c in Call X return Reply X * MockWorld with
    | GetSafeNonce _ => (Raise (Rejected "network error"), w)
    | WalletSendTransaction _ _ => (Raise (Rejected "network error"), w)
    | other => mock _ other w
    end.
Definition wallet0 : Wallet := mkWallet "0xsigner".
Definition safe_handle0 : SignerData :=
  mkSignerData (Some (mkContract "0xsafe")) (Some 3) None None None.

(** A pending set with one stale match, one entry for another destination and
    one fresh match. *)
Definition stale_and_fresh : list PendingTx :=
  [ mkPendingTx "0xdest" "0xdata" 2;
    mkPendingTx "0xother" "0xdata" 7;
    mkPendingTx "0xdest" "0xdata" 5 ].


(** A legacy handle, and a world whose multisig holds two pending entries. *)
Definition legacy_handle0 : SignerData :=
  mkSignerData None None None (Some (mkContract "0xmultisig")) None.

Definition legacy_world0 : MockWorld :=
  mkMockWorld None 0 [ mkPendingTx "0xdest" "0xdata" 1;
                       mkPendingTx "0xother" "0xdata" 4 ].

(** * Properties *)

(** ** Basic facts about the embedding *)

(** Running [p] and then [f]: the second part starts in the world the first
    part left, and the traces follow one another; a first part that throws or
    exits ends the run. *)
Lemma run_bind {W A B : Type} (h : Handler W) (p : Prog A) (f : A -> Prog B) (w : W) :
  run h (bind p f) w =
  match outcome (run h p w) with
  | Returned a =>
      mkRun (outcome (run h (f a) (world (run h p w))))
            (world (run h (f a) (world (run h p w))))
            (trace (run h p w) ++ trace (run h (f a) (world (run h p w))))
  | Thrown e => mkRun (Thrown e) (world (run h p w)) (trace (run h p w))
  | Exited => mkRun Exited (world (run h p w)) (trace (run h p w))
  end.
Proof.
  revert w. induction p as [a|e| |m k IH|X c k IH]; intro w; cbn.
  - destruct (run h (f a) w); reflexivity.
  - reflexivity.
  - reflexivity.
  - rewrite IH. destruct (outcome (run h k w)); reflexivity.
  - destruct (h X c w) as [[x|e] w']; cbn; [|reflexivity].
    rewrite IH. destruct (outcome (run h (k x) w')); reflexivity.
Qed.

(** [BigNumber.from] either yields a big number or throws; it calls nothing. *)
Lemma BigNumber_from_cases (value : option Z) :
  (exists limit : BigNumber, BigNumber_from value = Ret limit) \/
  (exists e : Error, BigNumber_from value = Throw e).
Proof.
  unfold BigNumber_from. destruct value as [n|]; [|right; eauto].
  destruct ((MAX_SAFE <=? n) || (n <=? - MAX_SAFE)); [right|left]; eauto.
Qed.

Lemma BigNumber_from_convertible (limit : Z) :
  - MAX_SAFE < limit < MAX_SAFE -> BigNumber_from (Some limit) = Ret limit.
Proof.
  intro Hrange. unfold BigNumber_from.
  destruct (Z.leb_spec MAX_SAFE limit); [lia|].
  destruct (Z.leb_spec limit (- MAX_SAFE)); [lia|]. reflexivity.
Qed.

Lemma BigNumber_from_overflow (limit : Z) :
  MAX_SAFE <= limit \/ limit <= - MAX_SAFE ->
  BigNumber_from (Some limit) = Throw (EthersError "NUMERIC_FAULT").
Proof.
  intro Hrange. unfold BigNumber_from.
  destruct (Z.leb_spec MAX_SAFE limit); [reflexivity|].
  destruct (Z.leb_spec limit (- MAX_SAFE)); [reflexivity|lia].
Qed.

#[local] Arguments BigNumber_from : simpl never.

(** Stepping through a run: case analysis on the next collaborator's reply. *)
Ltac next_reply :=
  match goal with
  | |- context [if truthy ?g then _ else _] =>
      destruct (truthy g) eqn:?; cbn
  | H : context [if truthy ?g then _ else _] |- _ =>
      destruct (truthy g) eqn:?; cbn in H
  | |- context [BigNumber_from ?g] =>
      let limit := fresh "limit" in
      let e := fresh "e" in
      destruct (BigNumber_from_cases g) as [[limit ->]|[e ->]]; cbn
  | H : context [BigNumber_from ?g] |- _ =>
      let limit := fresh "limit" in
      let e := fresh "e" in
      destruct (BigNumber_from_cases g) as [[limit Hfrom]|[e Hfrom]];
      rewrite Hfrom in H; clear Hfrom; cbn in H
  | |- context [match ?hd ?X ?c ?w0 with _ => _ end] =>
      let x := fresh "x" in
      let e := fresh "e" in
      let w' := fresh "w'" in
      destruct (hd X c w0) as [[x|e] w'] eqn:?; cbn
  | H : context [match ?hd ?X ?c ?w0 with _ => _ end] |- _ =>
      let x := fresh "x" in
      let e := fresh "e" in
      let w' := fresh "w'" in
      destruct (hd X c w0) as [[x|e] w'] eqn:?; cbn in H
  end.


Lemma strict_eq_true (a b : string) : (a === b) = true <-> a = b.
Proof. unfold strict_eq. apply String.eqb_eq. Qed.

Lemma strict_eq_false (a b : string) : a <> b -> (a === b) = false.
Proof. unfold strict_eq. intro H. now apply String.eqb_neq. Qed.

Lemma same_call_true (target encodedData : string) (e : PendingTx) :
  same_call target encodedData e = true <->
  tx_to e = target /\ tx_data e = encodedData.
Proof.
  unfold same_call. rewrite andb_true_iff, !strict_eq_true. tauto.
Qed.

Lemma same_call_renumber (f : Z -> Z) (target encodedData : string) (e : PendingTx) :
  same_call target encodedData (renumber f e) = same_call target encodedData e.
Proof. reflexivity. Qed.

Lemma existsb_renumber (f : Z -> Z) (target encodedData : string)
    (entries : list PendingTx) :
  existsb (same_call target encodedData) (map (renumber f) entries) =
  existsb (same_call target encodedData) entries.
Proof.
  induction entries as [|e rest IH]; simpl.
  - reflexivity.
  - now rewrite same_call_renumber, IH.
Qed.

(** Dropping the entries below the threshold does not change the verdict. *)
Lemma checkExistingPendingTx_filter (entries : list PendingTx)
    (target encodedData : string) (current : Z) :
  checkExistingPendingTx (Some (filter (fun e => current <=? tx_nonce e) entries))
    target encodedData (Some current) =
  checkExistingPendingTx (Some entries) target encodedData (Some current).
Proof.
  simpl. induction entries as [|e rest IH]; simpl.
  - reflexivity.
  - destruct (current <=? tx_nonce e) eqn:Hfresh; simpl.
    + now rewrite Hfresh, IH.
    + now rewrite andb_false_r, IH.
Qed.

Lemma checkExistingPendingTx_true (entries : list PendingTx)
    (target encodedData : string) (current : Z) :
  checkExistingPendingTx (Some entries) target encodedData (Some current) = true <->
  exists e, In e entries /\ tx_to e = target /\ tx_data e = encodedData /\
            current <= tx_nonce e.
Proof.
  simpl. rewrite existsb_exists. split.
  - intros [e [Hin Hmatch]]. apply andb_true_iff in Hmatch as [Hcall Hseq].
    apply same_call_true in Hcall as [Hto Hdata]. apply Z.leb_le in Hseq.
    exists e. auto.
  - intros [e [Hin [Hto [Hdata Hseq]]]]. exists e. split; [assumption|].
    apply andb_true_iff. split.
    + apply same_call_true. auto.
    + now apply Z.leb_le.
Qed.

(** ** Duplicate detection *)

(** C1. For the Coordinated kind ([KIND.safe]), [txAlreadyExists] returns
    [true] if and only if some entry of the supplied pending set matches the
    candidate's destination and encoded data exactly and carries a sequence
    number greater than or equal to the one the handle holds as current
    ([signerData.currentSafeNonce]).  Entries with a strictly smaller sequence
    number are ignored: removing them from the pending set gives the same
    program.  The check returns without calling any collaborator. *)
Theorem txAlreadyExists_safe_duplicate_iff :
  forall (W : Type) (h : Handler W) (w : W) (signerData : SignerData)
         (entries : list PendingTx) (target encodedData : string) (current : Z),
    currentSafeNonce signerData = Some current ->
    exists verdict : bool,
      run h (txAlreadyExists KIND.safe signerData (Some entries) target encodedData) w
        = mkRun (Returned verdict) w [] /\
      (verdict = true <->
       exists e, In e entries /\ tx_to e = target /\ tx_data e = encodedData /\
                 current <= tx_nonce e) /\
      txAlreadyExists KIND.safe signerData
        (Some (filter (fun e => current <=? tx_nonce e) entries)) target encodedData
        = txAlreadyExists KIND.safe signerData (Some entries) target encodedData.
Proof.
  intros W h w signerData entries target encodedData current Hcurrent.
  exists (checkExistingPendingTx (Some entries) target encodedData (Some current)).
  unfold txAlreadyExists. change (KIND.safe === KIND.safe) with true. cbv iota.
  rewrite Hcurrent. split; [reflexivity|]. split.
  - apply checkExistingPendingTx_true.
  - now rewrite checkExistingPendingTx_filter.
Qed.

Lemma txAlreadyExists_safe_duplicate_iff_witness :
  exists verdict : bool,
    run mock (txAlreadyExists KIND.safe safe_handle0 (Some stale_and_fresh)
                "0xdest" "0xdata") world0
      = mkRun (Returned verdict) world0 [] /\
    (verdict = true <->
     exists e, In e stale_and_fresh /\ tx_to e = "0xdest" /\ tx_data e = "0xdata" /\
               3 <= tx_nonce e) /\
    txAlreadyExists KIND.safe safe_handle0
      (Some (filter (fun e => 3 <=? tx_nonce e) stale_and_fresh)) "0xdest" "0xdata"
      = txAlreadyExists KIND.safe safe_handle0 (Some stale_and_fresh) "0xdest" "0xdata".
Proof.
  apply (txAlreadyExists_safe_duplicate_iff MockWorld mock world0 safe_handle0
           stale_and_fresh "0xdest" "0xdata" 3).
  reflexivity.
Defined.

(** A matching entry below the current sequence number alone is no duplicate;
    a matching entry at the current sequence number is. *)
Example stale_entry_is_ignored :
  outcome (run mock (txAlreadyExists KIND.safe safe_handle0
                       (Some [mkPendingTx "0xdest" "0xdata" 2]) "0xdest" "0xdata")
             world0) = Returned false.
Proof. reflexivity. Qed.

Example entry_at_current_sequence_counts :
  outcome (run mock (txAlreadyExists KIND.safe safe_handle0
                       (Some [mkPendingTx "0xdest" "0xdata" 3]) "0xdest" "0xdata")
             world0) = Returned true.
Proof. reflexivity. Qed.

(** C6. For the Direct kind ([KIND.eoa]), [txAlreadyExists] returns [false]
    for every handle, every pending set (present or absent), every destination
    and every encoded data, in every state of the outside world, and calls no
    collaborator. *)
Theorem txAlreadyExists_direct_false :
  forall (W : Type) (h : Handler W) (w : W) (signerData : SignerData)
         (staged : option (list PendingTx)) (target encodedData : string),
    run h (txAlreadyExists KIND.eoa signerData staged target encodedData) w
      = mkRun (Returned false) w [].
Proof. intros. reflexivity. Qed.

(** C10. The Coordinated duplicate check reads [signerData.currentSafeNonce],
    the sequence number fetched when the handle was built, and never
    [signerData.lastNonce]: two handles that differ only in [lastNonce] give
    the same [txAlreadyExists] program, that program is the check against
    [currentSafeNonce], and a call of [acceptOwnershipBySigner] (whatever its
    outcome) leaves [currentSafeNonce], and with it every later duplicate
    check, as it was. *)
Theorem txAlreadyExists_safe_ignores_lastNonce :
  forall (signerData : SignerData) (last1 last2 : option Z)
         (staged : option (list PendingTx)) (target encodedData : string),
    txAlreadyExists KIND.safe (set_lastNonce signerData last1) staged target encodedData
      = txAlreadyExists KIND.safe (set_lastNonce signerData last2) staged target encodedData
    /\
    txAlreadyExists KIND.safe signerData staged target encodedData
      = Ret (checkExistingPendingTx staged target encodedData
               (currentSafeNonce signerData))
    /\
    forall (W : Type) (h : Handler W) (w : W) (signerKind : string) (useFork : bool)
           (network privateKey providerUrl data to : string) (wallet : Wallet)
           (gasLimit : option Z) (gasPrice : string),
      let submitted :=
        handle_after signerData
          (run h (acceptOwnershipBySigner signerKind signerData useFork network
                    privateKey providerUrl data to wallet gasLimit gasPrice) w) in
      currentSafeNonce submitted = currentSafeNonce signerData /\
      txAlreadyExists KIND.safe submitted staged target encodedData
        = txAlreadyExists KIND.safe signerData staged target encodedData.
Proof.
  intros signerData last1 last2 staged target encodedData.
  split; [reflexivity|]. split; [reflexivity|].
  intros W h w signerKind useFork network privateKey providerUrl data to wallet
         gasLimit gasPrice submitted.
  assert (Hcurrent : currentSafeNonce submitted = currentSafeNonce signerData).
  { subst submitted. unfold handle_after, acceptOwnershipBySigner.
    destruct ((signerKind === KIND.safe) && negb useFork);
      [|destruct (signerKind === KIND.legacy)]; cbn;
      repeat next_reply; reflexivity. }
  split; [exact Hcurrent|].
  unfold txAlreadyExists. now rewrite Hcurrent.
Qed.

(** C8. For the Legacy kind, [txAlreadyExists] is the legacy binding's own
    check and nothing else.  The caller's [stagedTransactions] argument is
    bypassed: any two values of it give the same program, hence the same
    result in every state of the outside world.  The program is the binding's
    check on the handle's contract, the handle's own [stagedTransactions],
    and the destination and data exactly as given.  No sequence number enters
    it: the handle's [currentSafeNonce] and [lastNonce] play no part. *)
Theorem txAlreadyExists_legacy_bypasses_argument :
  forall (signerData : SignerData) (staged1 staged2 : option (list PendingTx))
         (target encodedData : string),
    txAlreadyExists KIND.legacy signerData staged1 target encodedData
      = txAlreadyExists KIND.legacy signerData staged2 target encodedData
    /\
    (forall (W : Type) (h : Handler W) (w : W),
        run h (txAlreadyExists KIND.legacy signerData staged1 target encodedData) w
        = run h (txAlreadyExists KIND.legacy signerData staged2 target encodedData) w)
    /\
    txAlreadyExists KIND.legacy signerData staged1 target encodedData
      = (tx <- checkMultisigExistingPendingTx (multisigContract signerData)
                 (stagedTransactions signerData) target encodedData;;
         Ret tx)
    /\
    (forall (safe : option Contract) (current last : option Z),
        txAlreadyExists KIND.legacy
          (mkSignerData safe current last (multisigContract signerData)
             (stagedTransactions signerData)) staged1 target encodedData
        = txAlreadyExists KIND.legacy signerData staged2 target encodedData).
Proof.
  intros signerData staged1 staged2 target encodedData.
  repeat split; reflexivity.
Qed.

(** With the binding's check as the spec describes it, the verdict is whether
    the pending set the binding looks at holds an entry with exactly this
    destination and data; by [existsb_renumber] the entries' sequence numbers
    do not matter. *)
Lemma txAlreadyExists_legacy_verdict :
  forall (W : Type) (h : Handler W) (w : W) (signerData : SignerData)
         (staged : option (list PendingTx)) (target encodedData : string),
    outcome (run h (txAlreadyExists KIND.legacy signerData staged target
                      encodedData) w)
    = match fst (legacy_lookup h signerData w) with
      | Ok pending => Returned (existsb (same_call target encodedData) pending)
      | Raise e => Thrown e
      end.
Proof.
  intros W h w signerData staged target encodedData.
  unfold txAlreadyExists, legacy_lookup.
  change (KIND.legacy === KIND.safe) with false.
  change (KIND.legacy === KIND.legacy) with true. cbv iota.
  unfold checkMultisigExistingPendingTx.
  destruct (stagedTransactions signerData) as [entries|]; cbn.
  - reflexivity.
  - destruct (h _ (MultisigPendingLookup (multisigContract signerData)) w)
      as [[pending|e] w']; reflexivity.
Qed.

(** The caller's pending set says the candidate is staged, the contract's own
    lookup says it is not: the contract wins. *)
Example legacy_ignores_callers_pending_set :
  outcome (run mock (txAlreadyExists KIND.legacy
                       (mkSignerData None None None (Some (mkContract "0xmultisig")) None)
                       (Some [mkPendingTx "0xdest" "0xdata" 1]) "0xdest" "0xdata")
             world0) = Returned false.
Proof. reflexivity. Qed.

(** ** Listing staged transactions *)

(** Counterexample to C7 as stated: for the Direct kind [getStagedTransactions]
    resolves to [undefined], not to an empty set. *)
Lemma getStagedTransactions_direct_not_empty_set :
  outcome (run mock (getStagedTransactions KIND.eoa emptySignerData "mainnet") world0)
    <> Returned (Some []).
Proof. cbn. discriminate. Qed.

(** C7, amended. For the Direct kind, [getStagedTransactions] returns
    [undefined] (no value, rather than an empty set) for every handle and
    network, without querying any backend. *)
Theorem getStagedTransactions_direct_undefined :
  forall (W : Type) (h : Handler W) (w : W) (signerData : SignerData)
         (network : string),
    run h (getStagedTransactions KIND.eoa signerData network) w
      = mkRun (Returned None) w [].
Proof. intros. reflexivity. Qed.

(** ** Building the handle *)

(** C5. For the Coordinated kind, [getSignerData] fetches the coordinating
    contract's sequence number exactly once.  When the fetched value is
    unusable (empty or zero) the session ends there: the notice is printed,
    the process exits, nothing is retried.  When it is usable the handle
    returned carries the contract reference and that sequence number. *)
Theorem getSignerData_safe_fetches_once :
  forall (W : Type) (h : Handler W) (w w1 w2 : W) (providerUrl newOwner : string)
         (safe : Contract) (fetched : option Z),
    h _ (GetSafeInstance providerUrl newOwner) w = (Ok safe, w1) ->
    h _ (GetSafeNonce safe) w1 = (Ok fetched, w2) ->
    let r := run h (getSignerData KIND.safe providerUrl newOwner) w in
    nonce_fetches (trace r) = 1%nat /\
    world r = w2 /\
    if truthy fetched
    then outcome r = Returned (mkSignerData (Some safe) fetched None None None) /\
         trace r = [ Called (GetSafeInstance providerUrl newOwner);
                     Called (GetSafeNonce safe);
                     Logged (ConsoleLog yellow
                               ("Using Protocol DAO Safe contract at " ++ address safe)) ]
    else BackendUnreachable r /\
         trace r = [ Called (GetSafeInstance providerUrl newOwner);
                     Called (GetSafeNonce safe);
                     Logged (ConsoleLog gray "Cannot access safe. Exiting.") ].
Proof.
  intros W h w w1 w2 providerUrl newOwner safe fetched Hinstance Hnonce r.
  subst r. unfold getSignerData, BackendUnreachable.
  change (KIND.safe === KIND.safe) with true. cbn.
  rewrite Hinstance. cbn. rewrite Hnonce. cbn.
  destruct (truthy fetched); cbn; repeat split; auto.
Qed.

Lemma getSignerData_safe_fetches_once_witness :
  let r := run mock (getSignerData KIND.safe "http://node" "0xsafe")
             (mkMockWorld (Some 0) 0 []) in
  nonce_fetches (trace r) = 1%nat /\
  world r = mkMockWorld (Some 0) 0 [] /\
  BackendUnreachable r /\
  trace r = [ Called (GetSafeInstance "http://node" "0xsafe");
              Called (GetSafeNonce (mkContract "0xsafe"));
              Logged (ConsoleLog gray "Cannot access safe. Exiting.") ].
Proof.
  exact (getSignerData_safe_fetches_once MockWorld mock
           (mkMockWorld (Some 0) 0 []) (mkMockWorld (Some 0) 0 [])
           (mkMockWorld (Some 0) 0 []) "http://node" "0xsafe"
           (mkContract "0xsafe") (Some 0) eq_refl eq_refl).
Defined.

(** An empty answer ends the session as well; a usable one gives the handle. *)
Example getSignerData_safe_empty_answer :
  outcome (run mock (getSignerData KIND.safe "http://node" "0xsafe")
             (mkMockWorld None 0 [])) = Exited.
Proof. reflexivity. Qed.

Example getSignerData_safe_usable_answer :
  outcome (run mock (getSignerData KIND.safe "http://node" "0xsafe") world0)
    = Returned safe_handle0.
Proof. reflexivity. Qed.

(** The sequence number is fetched at most once whatever the collaborators
    answer, also when one of them rejects. *)
Lemma getSignerData_never_refetches :
  forall (W : Type) (h : Handler W) (w : W) (signerKind providerUrl newOwner : string),
    (nonce_fetches (trace (run h (getSignerData signerKind providerUrl newOwner) w))
     <= 1)%nat.
Proof.
  intros W h w signerKind providerUrl newOwner. unfold getSignerData.
  destruct (signerKind === KIND.safe); cbn.
  - destruct (h _ (GetSafeInstance providerUrl newOwner) w) as [[safe|e] w1]; cbn;
      [|auto].
    destruct (h _ (GetSafeNonce safe) w1) as [[fetched|e] w2]; cbn; [|auto].
    destruct (truthy fetched); cbn; [|auto].
    destruct (signerKind === KIND.legacy); cbn; [|auto].
    destruct (h _ (GetMultisigInstance providerUrl newOwner) w2) as [[m|e] w3];
      cbn; auto.
  - destruct (signerKind === KIND.legacy); cbn; [|auto].
    destruct (h _ (GetMultisigInstance providerUrl newOwner) w) as [[m|e] w3];
      cbn; auto.
Qed.

(** ** Submitting *)

(** What a returning run of the staging branch looks like. *)
Lemma staging_run_returned :
  forall (W : Type) (h : Handler W) (w w' : W) (signerData signerData' : SignerData)
         (network privateKey providerUrl encodedData to : string) (wallet : Wallet)
         (gasLimit : option Z) (gasPrice : string) (result : option Receipt)
         (t : list Event),
    run h (acceptOwnershipBySigner KIND.safe signerData false network privateKey
             providerUrl encodedData to wallet gasLimit gasPrice) w
      = mkRun (Returned (result, signerData')) w' t ->
    exists (latest : Z) (txHash sig : string),
      let newNonce := match lastNonce signerData with
                      | Some tracked => Z.max tracked latest + 1
                      | None => latest + 1
                      end in
      result = None /\
      signerData' = set_lastNonce signerData (Some newNonce) /\
      t = [ Called (SafeLatestSequence (protocolDaoContract signerData) network);
            Called (SafeTransactionHash (protocolDaoContract signerData) to
                      encodedData (wallet_address wallet) newNonce);
            Called (GetSafeSignature privateKey providerUrl txHash);
            Called (SaveTransactionToApi (protocolDaoContract signerData) network
                      encodedData newNonce to (wallet_address wallet) txHash sig) ].
Proof.
  intros W h w w' signerData signerData' network privateKey providerUrl
         encodedData to wallet gasLimit gasPrice result t Hrun.
  unfold acceptOwnershipBySigner in Hrun.
  change ((KIND.safe === KIND.safe) && negb false) with true in Hrun.
  cbn in Hrun.
  repeat next_reply; try discriminate.
  unfold after in Hrun. cbn in Hrun. inversion Hrun; subst.
  eexists _, _, _. cbn. repeat split.
Qed.

(** Counterexample to C3 as stated: with the unrecognised kind ["LEDGER"],
    [acceptOwnershipBySigner] does not fail; it sends the transaction from the
    wallet and returns. *)
Lemma unrecognised_kind_is_not_rejected :
  "LEDGER" <> KIND.safe /\ "LEDGER" <> KIND.legacy /\ "LEDGER" <> KIND.eoa /\
  run mock (acceptOwnershipBySigner "LEDGER" emptySignerData false "mainnet"
              "0xkey" "http://node" "0xdata" "0xdest" wallet0 None "20") world0
    = mkRun (Returned (None, emptySignerData)) world0
        (direct_trace "20" "0xdata" "0xdest" wallet0 None 20000000000
           (mkTxResponse "0xsent") (mkReceipt "0xsent")).
Proof. repeat split; discriminate. Qed.

(** C3, amended. Every signer kind other than ['SAFE'] and ['LEGACY'],
    recognised or not, is routed like the Direct kind and nothing is rejected
    for its kind: [getSignerData] returns the empty handle,
    [getStagedTransactions] returns [undefined], [txAlreadyExists] returns
    [false], and [acceptOwnershipBySigner] is the direct single-wallet
    execution. *)
Theorem other_kinds_are_routed_as_direct :
  forall signerKind : string,
    signerKind <> KIND.safe ->
    signerKind <> KIND.legacy ->
    (forall providerUrl newOwner : string,
        getSignerData signerKind providerUrl newOwner = Ret emptySignerData) /\
    (forall (signerData : SignerData) (network : string),
        getStagedTransactions signerKind signerData network = Ret None) /\
    (forall (signerData : SignerData) (staged : option (list PendingTx))
            (target encodedData : string),
        txAlreadyExists signerKind signerData staged target encodedData = Ret false) /\
    (forall (signerData : SignerData) (useFork : bool)
            (network privateKey providerUrl encodedData to : string)
            (wallet : Wallet) (gasLimit : option Z) (gasPrice : string),
        acceptOwnershipBySigner signerKind signerData useFork network privateKey
          providerUrl encodedData to wallet gasLimit gasPrice
        = acceptOwnershipBySigner KIND.eoa signerData useFork network privateKey
            providerUrl encodedData to wallet gasLimit gasPrice).
Proof.
  intros signerKind Hsafe Hlegacy.
  apply strict_eq_false in Hsafe. apply strict_eq_false in Hlegacy.
  repeat split; intros.
  - unfold getSignerData. now rewrite Hsafe, Hlegacy.
  - unfold getStagedTransactions. now rewrite Hsafe, Hlegacy.
  - unfold txAlreadyExists. now rewrite Hsafe, Hlegacy.
  - unfold acceptOwnershipBySigner. now rewrite Hsafe, Hlegacy.
Qed.

Lemma other_kinds_are_routed_as_direct_witness :
  (forall providerUrl newOwner : string,
      getSignerData "LEDGER" providerUrl newOwner = Ret emptySignerData) /\
  (forall (signerData : SignerData) (network : string),
      getStagedTransactions "LEDGER" signerData network = Ret None) /\
  (forall (signerData : SignerData) (staged : option (list PendingTx))
          (target encodedData : string),
      txAlreadyExists "LEDGER" signerData staged target encodedData = Ret false) /\
  (forall (signerData : SignerData) (useFork : bool)
          (network privateKey providerUrl encodedData to : string)
          (wallet : Wallet) (gasLimit : option Z) (gasPrice : string),
      acceptOwnershipBySigner "LEDGER" signerData useFork network privateKey
        providerUrl encodedData to wallet gasLimit gasPrice
      = acceptOwnershipBySigner KIND.eoa signerData useFork network privateKey
          providerUrl encodedData to wallet gasLimit gasPrice).
Proof.
  apply (other_kinds_are_routed_as_direct "LEDGER"); discriminate.
Defined.

(** C4. In the Coordinated kind with fork mode off, [acceptOwnershipBySigner]
    never invokes a chain-submission primitive, whatever the inputs and
    whatever the collaborators answer: every step of the run is a staging
    step.  It never exits the process, and when it returns it returns no
    receipt, having derived the hash, signed it and saved the transaction to
    the coordination service, in that order.  The data flows as the source
    has it: the hash and sequence number that [getNewTransactionHash] returns
    for the handle's contract, the data, the destination, the wallet's
    address, the network and the handle's [lastNonce] are what is signed and
    saved, the signature saved is the one [getSafeSignature] gave for that
    hash, and the sequence number saved is what [lastNonce] holds afterwards. *)
Theorem staging_never_submits_to_chain :
  forall (W : Type) (h : Handler W) (w : W) (signerData : SignerData)
         (network privateKey providerUrl encodedData to : string) (wallet : Wallet)
         (gasLimit : option Z) (gasPrice : string),
    let r := run h (acceptOwnershipBySigner KIND.safe signerData false network
                      privateKey providerUrl encodedData to wallet gasLimit
                      gasPrice) w in
    existsb chain_submission (trace r) = false /\
    forallb staging_step (trace r) = true /\
    match outcome r with
    | Returned (result, _) =>
        result = None /\
        exists (newNonce : Z) (txHash sig : string),
          trace r =
          [ Called (SafeLatestSequence (protocolDaoContract signerData) network);
            Called (SafeTransactionHash (protocolDaoContract signerData) to
                      encodedData (wallet_address wallet) newNonce);
            Called (GetSafeSignature privateKey providerUrl txHash);
            Called (SaveTransactionToApi (protocolDaoContract signerData) network
                      encodedData newNonce to (wallet_address wallet) txHash sig) ]
    | Thrown _ => True
    | Exited => False
    end /\
    (forall (txHash : string) (newNonce : Z) (sig : string) (w1 w2 w3 : W)
            (derivation : list Event),
        run h (getNewTransactionHash (protocolDaoContract signerData) encodedData
                 to (wallet_address wallet) network (lastNonce signerData)) w
          = mkRun (Returned (txHash, newNonce)) w1 derivation ->
        h _ (GetSafeSignature privateKey providerUrl txHash) w1 = (Ok sig, w2) ->
        h _ (SaveTransactionToApi (protocolDaoContract signerData) network
               encodedData newNonce to (wallet_address wallet) txHash sig) w2
          = (Ok tt, w3) ->
        r = mkRun (Returned (None, set_lastNonce signerData (Some newNonce))) w3
              (derivation ++
               [ Called (GetSafeSignature privateKey providerUrl txHash);
                 Called (SaveTransactionToApi (protocolDaoContract signerData)
                           network encodedData newNonce to (wallet_address wallet)
                           txHash sig) ])) /\
    (forall (txHash : string) (newNonce : Z) (e : Error) (w1 w2 : W)
            (derivation : list Event),
        run h (getNewTransactionHash (protocolDaoContract signerData) encodedData
                 to (wallet_address wallet) network (lastNonce signerData)) w
          = mkRun (Returned (txHash, newNonce)) w1 derivation ->
        h _ (GetSafeSignature privateKey providerUrl txHash) w1 = (Raise e, w2) ->
        r = mkRun (Thrown e) w2
              (derivation ++
               [ Called (GetSafeSignature privateKey providerUrl txHash) ])).
Proof.
  intros W h w signerData network privateKey providerUrl encodedData to wallet
         gasLimit gasPrice r.
  split; [|split; [|split; [|split]]].
  - subst r. unfold acceptOwnershipBySigner.
    change ((KIND.safe === KIND.safe) && negb false) with true. cbn.
    repeat next_reply; reflexivity.
  - subst r. unfold acceptOwnershipBySigner.
    change ((KIND.safe === KIND.safe) && negb false) with true. cbn.
    repeat next_reply; reflexivity.
  - subst r. unfold acceptOwnershipBySigner.
    change ((KIND.safe === KIND.safe) && negb false) with true. cbn.
    repeat next_reply; auto. split; [reflexivity|].
    eexists _, _, _. reflexivity.
  - intros txHash newNonce sig w1 w2 w3 derivation Hderive Hsign Hsave.
    subst r. unfold acceptOwnershipBySigner.
    change ((KIND.safe === KIND.safe) && negb false) with true. cbv iota.
    rewrite run_bind, Hderive. cbn. rewrite Hsign. cbn. rewrite Hsave. reflexivity.
  - intros txHash newNonce e w1 w2 derivation Hderive Hsign.
    subst r. unfold acceptOwnershipBySigner.
    change ((KIND.safe === KIND.safe) && negb false) with true. cbv iota.
    rewrite run_bind, Hderive. cbn. rewrite Hsign. reflexivity.
Qed.

(** The second scenario of the spec, first submission: the contract and the
    service are at sequence 3, so the hash is derived for 4, signed and
    saved. *)
Lemma staging_never_submits_to_chain_witness :
  run mock (acceptOwnershipBySigner KIND.safe safe_handle0 false "mainnet" "0xkey"
              "http://node" "0xdata" "0xdest" wallet0 None "20") world0
    = mkRun (Returned (None, set_lastNonce safe_handle0 (Some 4)))
        (mkMockWorld (Some 3) 4 [])
        ([ Called (SafeLatestSequence (Some (mkContract "0xsafe")) "mainnet");
           Called (SafeTransactionHash (Some (mkContract "0xsafe")) "0xdest"
                     "0xdata" "0xsigner" 4) ] ++
         [ Called (GetSafeSignature "0xkey" "http://node" "0xhash");
           Called (SaveTransactionToApi (Some (mkContract "0xsafe")) "mainnet"
                     "0xdata" 4 "0xdest" "0xsigner" "0xhash" "0xsig") ]).
Proof.
  exact (proj1 (proj2 (proj2 (proj2
           (staging_never_submits_to_chain MockWorld mock world0 safe_handle0
              "mainnet" "0xkey" "http://node" "0xdata" "0xdest" wallet0 None
              "20"))))
           "0xhash" 4 "0xsig" world0 world0 (mkMockWorld (Some 3) 4 [])
           [ Called (SafeLatestSequence (Some (mkContract "0xsafe")) "mainnet");
             Called (SafeTransactionHash (Some (mkContract "0xsafe")) "0xdest"
                       "0xdata" "0xsigner" 4) ]
           eq_refl eq_refl eq_refl).
Defined.

(** The [gasLimit] property is set exactly when the supplied gas limit is
    truthy, and then holds that limit. *)
Lemma direct_params_gasLimit (to : string) (gasPriceWei : BigNumber)
    (encodedData : string) (gasLimit : option Z) (limit : BigNumber) :
  params_gasLimit (direct_params to gasPriceWei encodedData gasLimit) = Some limit
  <-> gasLimit = Some limit /\ limit <> 0.
Proof.
  unfold direct_params, truthy. cbn.
  destruct gasLimit as [n|]; cbn.
  - destruct (Z.eqb_spec n 0) as [Hzero|Hnonzero]; cbn.
    + split; [discriminate|]. intros [Hsome Hlimit]. congruence.
    + split.
      * intro H. inversion H; subst. auto.
      * intros [H _]. exact H.
  - split; [discriminate|]. intros [H _]. discriminate.
Qed.

(** The conditional assignment of [params.gasLimit], for a gas limit that
    [BigNumber.from] accepts. *)
Lemma attach_convertible_gasLimit (to : string) (gasPriceWei : BigNumber)
    (encodedData : string) (gasLimit : option Z) :
  convertible gasLimit ->
  (if truthy gasLimit
   then limit <- BigNumber_from gasLimit;;
        Ret (set_gasLimit (mkTxParams to gasPriceWei encodedData None) limit)
   else Ret (mkTxParams to gasPriceWei encodedData None))
  = Ret (direct_params to gasPriceWei encodedData gasLimit).
Proof.
  intro Hconvertible. unfold direct_params.
  destruct gasLimit as [limit|]; [|reflexivity].
  destruct (truthy (Some limit)); [|reflexivity].
  cbn in Hconvertible. now rewrite (BigNumber_from_convertible limit Hconvertible).
Qed.

(** Counterexample to C9 as stated, on Direct submissions with gas price
    ["20"].  With the gas limit given as [0], the gas limit was supplied, yet
    the transaction goes out without a [gasLimit] property; and the receipt
    is logged, yet the function returns no receipt.  With the gas limit given
    as [9007199254740991], [BigNumber.from] throws: no [gasLimit] is attached
    and no transaction is sent at all. *)
Lemma direct_submit_returns_no_receipt :
  run mock (acceptOwnershipBySigner KIND.eoa emptySignerData false "mainnet"
              "0xkey" "http://node" "0xdata" "0xdest" wallet0 (Some 0) "20") world0
    = mkRun (Returned (None, emptySignerData)) world0
        [ Called (ParseUnits "20" "gwei");
          Called (WalletSendTransaction wallet0
                    (mkTxParams "0xdest" 20000000000 "0xdata" None));
          Called (TxWait (mkTxResponse "0xsent"));
          Logged (LogTx (mkReceipt "0xsent")) ]
  /\
  run mock (acceptOwnershipBySigner KIND.eoa emptySignerData false "mainnet"
              "0xkey" "http://node" "0xdata" "0xdest" wallet0
              (Some 9007199254740991) "20") world0
    = mkRun (Thrown (EthersError "NUMERIC_FAULT")) world0
        [ Called (ParseUnits "20" "gwei") ].
Proof. split; reflexivity. Qed.

(** C9, amended. On the direct-execution path (Direct kind, or Coordinated
    with fork mode on) the gas price is converted with
    [parseUnits(gasPrice, 'gwei')] and the gas limit, when it is truthy (given
    and not zero), with [BigNumber.from].  For a gas limit that
    [BigNumber.from] accepts (magnitude below [MAX_SAFE]), the [gasLimit]
    property is set if and only if the supplied gas limit is truthy, the
    transaction is sent from the wallet and awaited, and the receipt is
    logged.  The function itself returns no value, and the handle is left as
    it was. *)
Theorem direct_execution_sends_and_logs :
  forall (W : Type) (h : Handler W) (w w1 w2 w3 : W) (signerKind : string)
         (signerData : SignerData) (useFork : bool)
         (network privateKey providerUrl encodedData to : string) (wallet : Wallet)
         (gasLimit : option Z) (gasPrice : string) (gasPriceWei : BigNumber)
         (tx : TxResponse) (receipt : Receipt),
    signerKind = KIND.eoa \/ (signerKind = KIND.safe /\ useFork = true) ->
    convertible gasLimit ->
    h _ (ParseUnits gasPrice "gwei") w = (Ok gasPriceWei, w1) ->
    h _ (WalletSendTransaction wallet
           (direct_params to gasPriceWei encodedData gasLimit)) w1 = (Ok tx, w2) ->
    h _ (TxWait tx) w2 = (Ok receipt, w3) ->
    run h (acceptOwnershipBySigner signerKind signerData useFork network privateKey
             providerUrl encodedData to wallet gasLimit gasPrice) w
      = mkRun (Returned (None, signerData)) w3
          (direct_trace gasPrice encodedData to wallet gasLimit gasPriceWei tx
             receipt)
    /\ params_gasPrice (direct_params to gasPriceWei encodedData gasLimit)
       = gasPriceWei
    /\ forall limit : BigNumber,
         params_gasLimit (direct_params to gasPriceWei encodedData gasLimit)
           = Some limit
         <-> gasLimit = Some limit /\ limit <> 0.
Proof.
  intros W h w w1 w2 w3 signerKind signerData useFork network privateKey
         providerUrl encodedData to wallet gasLimit gasPrice gasPriceWei tx
         receipt Hpath Hconvertible Hparse Hsend Hwait.
  split; [|split; [reflexivity|intro limit; apply direct_params_gasLimit]].
  unfold acceptOwnershipBySigner.
  assert (Hroute : (signerKind === KIND.safe) && negb useFork = false
                   /\ (signerKind === KIND.legacy) = false).
  { destruct Hpath as [Heoa|[Hsafe Hfork]]; subst; split; reflexivity. }
  destruct Hroute as [Hstaging Hlegacy]. rewrite Hstaging, Hlegacy.
  cbn. rewrite Hparse. cbn.
  rewrite (attach_convertible_gasLimit to gasPriceWei encodedData gasLimit
             Hconvertible).
  cbn. rewrite Hsend. cbn. rewrite Hwait. reflexivity.
Qed.

Lemma direct_execution_sends_and_logs_witness :
  run mock (acceptOwnershipBySigner KIND.eoa emptySignerData false "mainnet"
              "0xkey" "http://node" "0xdata" "0xdest" wallet0 (Some 21000) "20")
      world0
    = mkRun (Returned (None, emptySignerData)) world0
        (direct_trace "20" "0xdata" "0xdest" wallet0 (Some 21000) 20000000000
           (mkTxResponse "0xsent") (mkReceipt "0xsent"))
  /\ params_gasPrice (direct_params "0xdest" 20000000000 "0xdata" (Some 21000))
     = 20000000000
  /\ forall limit : BigNumber,
       params_gasLimit (direct_params "0xdest" 20000000000 "0xdata" (Some 21000))
         = Some limit
       <-> Some 21000 = Some limit /\ limit <> 0.
Proof.
  apply (direct_execution_sends_and_logs MockWorld mock world0 world0 world0
           world0 KIND.eoa emptySignerData false "mainnet" "0xkey" "http://node"
           "0xdata" "0xdest" wallet0 (Some 21000) "20" 20000000000
           (mkTxResponse "0xsent") (mkReceipt "0xsent")).
  - left. reflexivity.
  - unfold convertible, MAX_SAFE. lia.
  - reflexivity.
  - reflexivity.
  - reflexivity.
Defined.

(** The third scenario of the spec: no gas limit supplied, so the transaction
    goes out without a [gasLimit] property. *)
Example direct_submit_without_gas_limit :
  run mock (acceptOwnershipBySigner KIND.eoa emptySignerData false "mainnet"
              "0xkey" "http://node" "0xdata" "0xdest" wallet0 None "20") world0
    = mkRun (Returned (None, emptySignerData)) world0
        [ Called (ParseUnits "20" "gwei");
          Called (WalletSendTransaction wallet0
                    (mkTxParams "0xdest" 20000000000 "0xdata" None));
          Called (TxWait (mkTxResponse "0xsent"));
          Logged (LogTx (mkReceipt "0xsent")) ].
Proof. reflexivity. Qed.

(** Fork mode sends a Coordinated submission down the same path, here with a
    gas limit. *)
Example fork_mode_executes_directly :
  run mock (acceptOwnershipBySigner KIND.safe safe_handle0 true "mainnet" "0xkey"
              "http://node" "0xdata" "0xdest" wallet0 (Some 21000) "20") world0
    = mkRun (Returned (None, safe_handle0)) world0
        [ Called (ParseUnits "20" "gwei");
          Called (WalletSendTransaction wallet0
                    (mkTxParams "0xdest" 20000000000 "0xdata" (Some 21000)));
          Called (TxWait (mkTxResponse "0xsent"));
          Logged (LogTx (mkReceipt "0xsent")) ].
Proof. reflexivity. Qed.

(** ** Sequence tracking *)

Lemma seq_le_refl (a : option Z) : seq_le a a.
Proof. destruct a; simpl; [lia|exact I]. Qed.

(** Whatever the kind, the fork mode and the outcome, a call of
    [acceptOwnershipBySigner] never lowers [lastNonce]. *)
Lemma lastNonce_never_decreases :
  forall (W : Type) (h : Handler W) (w : W) (signerKind : string)
         (signerData : SignerData) (useFork : bool)
         (network privateKey providerUrl encodedData to : string) (wallet : Wallet)
         (gasLimit : option Z) (gasPrice : string),
    seq_le (lastNonce signerData)
      (lastNonce
         (handle_after signerData
            (run h (acceptOwnershipBySigner signerKind signerData useFork network
                      privateKey providerUrl encodedData to wallet gasLimit
                      gasPrice) w))).
Proof.
  intros W h w signerKind signerData useFork network privateKey providerUrl
         encodedData to wallet gasLimit gasPrice.
  unfold handle_after, acceptOwnershipBySigner.
  destruct ((signerKind === KIND.safe) && negb useFork);
    [|destruct (signerKind === KIND.legacy)]; cbn;
    repeat next_reply; try apply seq_le_refl.
  destruct (lastNonce signerData) as [previous|]; simpl; lia.
Qed.

(** What a returning run looks like when fork mode sends a Coordinated
    submission down the direct path: nothing is staged and the handle is left
    as it was. *)
Lemma fork_run_returned :
  forall (W : Type) (h : Handler W) (w w' : W) (signerData signerData' : SignerData)
         (network privateKey providerUrl encodedData to : string) (wallet : Wallet)
         (gasLimit : option Z) (gasPrice : string) (result : option Receipt)
         (t : list Event),
    run h (acceptOwnershipBySigner KIND.safe signerData true network privateKey
             providerUrl encodedData to wallet gasLimit gasPrice) w
      = mkRun (Returned (result, signerData')) w' t ->
    staged_nonces t = [] /\ signerData' = signerData.
Proof.
  intros W h w w' signerData signerData' network privateKey providerUrl
         encodedData to wallet gasLimit gasPrice result t Hrun.
  unfold acceptOwnershipBySigner in Hrun.
  change ((KIND.safe === KIND.safe) && negb true) with false in Hrun.
  change (KIND.safe === KIND.legacy) with false in Hrun.
  cbn in Hrun.
  repeat next_reply; try discriminate;
    unfold after in Hrun; cbn in Hrun; inversion Hrun; subst; split; reflexivity.
Qed.

(** One returning Coordinated submission: in fork mode no sequence number is
    used and the handle is untouched; otherwise exactly one sequence number is
    used, it is what [lastNonce] holds afterwards, and it lies strictly above
    what [lastNonce] held before. *)
Lemma submission_returned :
  forall (W : Type) (h : Handler W) (w w' : W) (signerData signerData' : SignerData)
         (useFork : bool)
         (network privateKey providerUrl encodedData to : string) (wallet : Wallet)
         (gasLimit : option Z) (gasPrice : string) (result : option Receipt)
         (t : list Event),
    run h (acceptOwnershipBySigner KIND.safe signerData useFork network privateKey
             providerUrl encodedData to wallet gasLimit gasPrice) w
      = mkRun (Returned (result, signerData')) w' t ->
    if useFork
    then staged_nonces t = [] /\ signerData' = signerData
    else exists used : Z,
        staged_nonces t = [used] /\ lastNonce signerData' = Some used /\
        forall previous : Z, lastNonce signerData = Some previous -> previous < used.
Proof.
  intros W h w w' signerData signerData' useFork network privateKey providerUrl
         encodedData to wallet gasLimit gasPrice result t Hrun.
  destruct useFork.
  - eapply fork_run_returned; eassumption.
  - apply staging_run_returned in Hrun
      as (latest & txHash & sig & _ & Hhandle & Htrace).
    cbv zeta in *. subst signerData' t. eexists. repeat split.
    intros previous Hprevious. rewrite Hprevious. lia.
Qed.

(** Fork mode on a Coordinated handle whose [lastNonce] is 4: the submission
    goes down the direct path, nothing is staged and [lastNonce] is still 4
    afterwards. *)
Example fork_submission_does_not_advance :
  run mock (acceptOwnershipBySigner KIND.safe (set_lastNonce safe_handle0 (Some 4))
              true "mainnet" "0xkey" "http://node" "0xdata" "0xdest" wallet0 None
              "20") world0
    = mkRun (Returned (None, set_lastNonce safe_handle0 (Some 4))) world0
        (direct_trace "20" "0xdata" "0xdest" wallet0 None 20000000000
           (mkTxResponse "0xsent") (mkReceipt "0xsent"))
  /\ staged_nonces (direct_trace "20" "0xdata" "0xdest" wallet0 None 20000000000
                      (mkTxResponse "0xsent") (mkReceipt "0xsent")) = [].
Proof. split; reflexivity. Qed.

(** Two returning Coordinated submissions in a row on the same handle, each
    in either fork mode: a staged submission uses one sequence number and
    leaves exactly that number in [lastNonce], a fork-mode submission uses
    none and leaves [lastNonce] as it was; every number used by the second
    is strictly greater than every one used by the first, and [lastNonce]
    never goes down on the way. *)
Lemma submissions_in_a_row :
  forall (W : Type) (h : Handler W) (w w' v v' : W)
         (signerData signerData1 signerData2 : SignerData)
         (useFork1 : bool)
         (network1 privateKey1 providerUrl1 data1 to1 : string) (wallet1 : Wallet)
         (gasLimit1 : option Z) (gasPrice1 : string)
         (useFork2 : bool)
         (network2 privateKey2 providerUrl2 data2 to2 : string) (wallet2 : Wallet)
         (gasLimit2 : option Z) (gasPrice2 : string)
         (result1 result2 : option Receipt) (t1 t2 : list Event),
    run h (acceptOwnershipBySigner KIND.safe signerData useFork1 network1
             privateKey1 providerUrl1 data1 to1 wallet1 gasLimit1 gasPrice1) w
      = mkRun (Returned (result1, signerData1)) w' t1 ->
    run h (acceptOwnershipBySigner KIND.safe signerData1 useFork2 network2
             privateKey2 providerUrl2 data2 to2 wallet2 gasLimit2 gasPrice2) v
      = mkRun (Returned (result2, signerData2)) v' t2 ->
    (if useFork1
     then staged_nonces t1 = [] /\ lastNonce signerData1 = lastNonce signerData
     else exists used1 : Z,
         staged_nonces t1 = [used1] /\ lastNonce signerData1 = Some used1) /\
    (if useFork2
     then staged_nonces t2 = [] /\ lastNonce signerData2 = lastNonce signerData1
     else exists used2 : Z,
         staged_nonces t2 = [used2] /\ lastNonce signerData2 = Some used2) /\
    (forall used1 used2 : Z,
        In used1 (staged_nonces t1) -> In used2 (staged_nonces t2) ->
        used1 < used2) /\
    seq_le (lastNonce signerData) (lastNonce signerData1) /\
    seq_le (lastNonce signerData1) (lastNonce signerData2).
Proof.
  intros W h w w' v v' signerData signerData1 signerData2
         useFork1 network1 privateKey1 providerUrl1 data1 to1 wallet1 gasLimit1
         gasPrice1
         useFork2 network2 privateKey2 providerUrl2 data2 to2 wallet2 gasLimit2
         gasPrice2 result1 result2 t1 t2 Hfirst Hsecond.
  pose proof (lastNonce_never_decreases W h w KIND.safe signerData useFork1
                network1 privateKey1 providerUrl1 data1 to1 wallet1 gasLimit1
                gasPrice1) as Hmono1.
  pose proof (lastNonce_never_decreases W h v KIND.safe signerData1 useFork2
                network2 privateKey2 providerUrl2 data2 to2 wallet2 gasLimit2
                gasPrice2) as Hmono2.
  rewrite Hfirst in Hmono1. rewrite Hsecond in Hmono2.
  unfold handle_after in Hmono1, Hmono2. cbn in Hmono1, Hmono2.
  apply submission_returned in Hfirst. apply submission_returned in Hsecond.
  repeat split; try assumption.
  - destruct useFork1.
    + destruct Hfirst as [Hnone Hsame]. now subst signerData1.
    + destruct Hfirst as (used1 & Hused & Hlast & _). eauto.
  - destruct useFork2.
    + destruct Hsecond as [Hnone Hsame]. now subst signerData2.
    + destruct Hsecond as (used2 & Hused & Hlast & _). eauto.
  - intros used1 used2 Hin1 Hin2.
    destruct useFork1.
    { destruct Hfirst as [Hnone _]. rewrite Hnone in Hin1. contradiction. }
    destruct useFork2.
    { destruct Hsecond as [Hnone _]. rewrite Hnone in Hin2. contradiction. }
    destruct Hfirst as (n1 & Hused1 & Hlast1 & _).
    destruct Hsecond as (n2 & Hused2 & _ & Habove).
    rewrite Hused1 in Hin1. rewrite Hused2 in Hin2.
    destruct Hin1 as [<-|[]]. destruct Hin2 as [<-|[]].
    now apply Habove.
Qed.

(** C2. In the Coordinated kind, every submission that succeeds by staging
    uses one sequence number and advances [signerData.lastNonce] to exactly
    that number.  For two such submissions in a row on the same handle, in
    whatever state of the outside world the second one starts, the second
    number is strictly greater than the first, and [lastNonce] never went
    down on the way. *)
Theorem consecutive_submissions_increase :
  forall (W : Type) (h : Handler W) (w w' v v' : W)
         (signerData signerData1 signerData2 : SignerData)
         (network1 privateKey1 providerUrl1 data1 to1 : string) (wallet1 : Wallet)
         (gasLimit1 : option Z) (gasPrice1 : string)
         (network2 privateKey2 providerUrl2 data2 to2 : string) (wallet2 : Wallet)
         (gasLimit2 : option Z) (gasPrice2 : string)
         (result1 result2 : option Receipt) (t1 t2 : list Event),
    run h (acceptOwnershipBySigner KIND.safe signerData false network1 privateKey1
             providerUrl1 data1 to1 wallet1 gasLimit1 gasPrice1) w
      = mkRun (Returned (result1, signerData1)) w' t1 ->
    run h (acceptOwnershipBySigner KIND.safe signerData1 false network2 privateKey2
             providerUrl2 data2 to2 wallet2 gasLimit2 gasPrice2) v
      = mkRun (Returned (result2, signerData2)) v' t2 ->
    exists used1 used2 : Z,
      staged_nonces t1 = [used1] /\ lastNonce signerData1 = Some used1 /\
      staged_nonces t2 = [used2] /\ lastNonce signerData2 = Some used2 /\
      used1 < used2 /\
      seq_le (lastNonce signerData) (lastNonce signerData1) /\
      seq_le (lastNonce signerData1) (lastNonce signerData2).
Proof.
  intros W h w w' v v' signerData signerData1 signerData2
         network1 privateKey1 providerUrl1 data1 to1 wallet1 gasLimit1 gasPrice1
         network2 privateKey2 providerUrl2 data2 to2 wallet2 gasLimit2 gasPrice2
         result1 result2 t1 t2 Hfirst Hsecond.
  destruct (submissions_in_a_row W h w w' v v' signerData signerData1 signerData2
              false network1 privateKey1 providerUrl1 data1 to1 wallet1 gasLimit1
              gasPrice1
              false network2 privateKey2 providerUrl2 data2 to2 wallet2 gasLimit2
              gasPrice2 result1 result2 t1 t2 Hfirst Hsecond)
    as ((used1 & Hused1 & Hlast1) & (used2 & Hused2 & Hlast2) & Hbelow & Hle1 & Hle2).
  exists used1, used2. repeat split; try assumption.
  apply Hbelow.
  - rewrite Hused1. now left.
  - rewrite Hused2. now left.
Qed.

Lemma consecutive_submissions_increase_witness :
  exists used1 used2 : Z,
    staged_nonces
      [ Called (SafeLatestSequence (Some (mkContract "0xsafe")) "mainnet");
        Called (SafeTransactionHash (Some (mkContract "0xsafe")) "0xdest" "0xdata"
                  "0xsigner" 4);
        Called (GetSafeSignature "0xkey" "http://node" "0xhash");
        Called (SaveTransactionToApi (Some (mkContract "0xsafe")) "mainnet"
                  "0xdata" 4 "0xdest" "0xsigner" "0xhash" "0xsig") ] = [used1] /\
    lastNonce (set_lastNonce safe_handle0 (Some 4)) = Some used1 /\
    staged_nonces
      [ Called (SafeLatestSequence (Some (mkContract "0xsafe")) "mainnet");
        Called (SafeTransactionHash (Some (mkContract "0xsafe")) "0xdest2"
                  "0xdata2" "0xsigner" 5);
        Called (GetSafeSignature "0xkey" "http://node" "0xhash");
        Called (SaveTransactionToApi (Some (mkContract "0xsafe")) "mainnet"
                  "0xdata2" 5 "0xdest2" "0xsigner" "0xhash" "0xsig") ] = [used2] /\
    lastNonce (set_lastNonce safe_handle0 (Some 5)) = Some used2 /\
    used1 < used2 /\
    seq_le (lastNonce safe_handle0) (lastNonce (set_lastNonce safe_handle0 (Some 4))) /\
    seq_le (lastNonce (set_lastNonce safe_handle0 (Some 4)))
           (lastNonce (set_lastNonce safe_handle0 (Some 5))).
Proof.
  apply (consecutive_submissions_increase MockWorld mock
           world0 (mkMockWorld (Some 3) 4 [])
           (mkMockWorld (Some 3) 4 []) (mkMockWorld (Some 3) 5 [])
           safe_handle0 (set_lastNonce safe_handle0 (Some 4))
           (set_lastNonce safe_handle0 (Some 5))
           "mainnet" "0xkey" "http://node" "0xdata" "0xdest" wallet0 None "20"
           "mainnet" "0xkey" "http://node" "0xdata2" "0xdest2" wallet0 None "20"
           None None).
  - reflexivity.
  - reflexivity.
Defined.

(** The second scenario of the spec: the contract is at sequence 3, the first
    submission is staged under 4 and the next one under 5. *)
Example two_submissions_use_4_then_5 :
  let first := run mock (acceptOwnershipBySigner KIND.safe safe_handle0 false
                           "mainnet" "0xkey" "http://node" "0xdata" "0xdest"
                           wallet0 None "20") world0 in
  let second := run mock (acceptOwnershipBySigner KIND.safe
                            (handle_after safe_handle0 first) false
                            "mainnet" "0xkey" "http://node" "0xdata2" "0xdest2"
                            wallet0 None "20") (world first) in
  staged_nonces (trace first) = [4] /\
  lastNonce (handle_after safe_handle0 first) = Some 4 /\
  staged_nonces (trace second) = [5] /\
  lastNonce (handle_after (handle_after safe_handle0 first) second) = Some 5.
Proof. repeat split. Qed.

(** * Further properties of the four functions *)

(** ** [getSignerData] *)

(** The two kind constants the code tests for are different strings, so at
    most one of the two [if]s of a function fires. *)
Lemma safe_is_not_legacy (signerKind : string) :
  (signerKind === KIND.safe) = true -> (signerKind === KIND.legacy) = false.
Proof. intro H. apply strict_eq_true in H. subst. reflexivity. Qed.

(** X1. Shape of every handle [getSignerData] returns: the Safe contract is
    set exactly for ['SAFE'], the multisig contract exactly for ['LEGACY'],
    never both; the sequence number is truthy exactly for ['SAFE'];
    [lastNonce] and [stagedTransactions] are never set. *)
Theorem getSignerData_handle_shape :
  forall (W : Type) (h : Handler W) (w w' : W)
         (signerKind providerUrl newOwner : string) (signerData : SignerData)
         (t : list Event),
    run h (getSignerData signerKind providerUrl newOwner) w
      = mkRun (Returned signerData) w' t ->
    (protocolDaoContract signerData <> None <-> signerKind = KIND.safe) /\
    (multisigContract signerData <> None <-> signerKind = KIND.legacy) /\
    (protocolDaoContract signerData = None \/ multisigContract signerData = None) /\
    truthy (currentSafeNonce signerData) = (signerKind === KIND.safe) /\
    lastNonce signerData = None /\
    stagedTransactions signerData = None.
Proof.
  intros W h w w' signerKind providerUrl newOwner signerData t Hrun.
  unfold getSignerData in Hrun.
  destruct (signerKind === KIND.safe) eqn:Hsafe.
  - rewrite (safe_is_not_legacy _ Hsafe) in Hrun.
    apply strict_eq_true in Hsafe. cbn in Hrun.
    repeat next_reply; try discriminate.
    destruct (truthy x0) eqn:Husable; cbn in Hrun; try discriminate.
    inversion Hrun; subst; cbn.
    repeat split; auto; try discriminate; try congruence.
  - assert (Hnot : signerKind <> KIND.safe).
    { intro Heq. apply strict_eq_true in Heq. congruence. }
    destruct (signerKind === KIND.legacy) eqn:Hlegacy; cbn in Hrun.
    + apply strict_eq_true in Hlegacy.
      repeat next_reply; try discriminate.
      inversion Hrun; subst; cbn.
      repeat split; auto; try discriminate; try congruence.
    + assert (Hnot' : signerKind <> KIND.legacy).
      { intro Heq. apply strict_eq_true in Heq. congruence. }
      inversion Hrun; subst; cbn.
      repeat split; auto; try discriminate; try congruence.
Qed.

Lemma getSignerData_handle_shape_witness :
  (protocolDaoContract safe_handle0 <> None <-> KIND.safe = KIND.safe) /\
  (multisigContract safe_handle0 <> None <-> KIND.safe = KIND.legacy) /\
  (protocolDaoContract safe_handle0 = None \/ multisigContract safe_handle0 = None) /\
  truthy (currentSafeNonce safe_handle0) = (KIND.safe === KIND.safe) /\
  lastNonce safe_handle0 = None /\
  stagedTransactions safe_handle0 = None.
Proof.
  apply (getSignerData_handle_shape MockWorld mock world0 world0 KIND.safe
           "http://node" "0xsafe" safe_handle0
           [ Called (GetSafeInstance "http://node" "0xsafe");
             Called (GetSafeNonce (mkContract "0xsafe"));
             Logged (ConsoleLog yellow
                       "Using Protocol DAO Safe contract at 0xsafe") ]).
  reflexivity.
Defined.

(** X2. For every kind other than ['SAFE'], [getSignerData] prints nothing,
    never exits the process and never fetches a sequence number; the only
    call it can make is the one [getMultisigInstance]. *)
Theorem getSignerData_other_kinds_are_quiet :
  forall (W : Type) (h : Handler W) (w : W)
         (signerKind providerUrl newOwner : string),
    signerKind <> KIND.safe ->
    let r := run h (getSignerData signerKind providerUrl newOwner) w in
    existsb is_log (trace r) = false /\
    nonce_fetches (trace r) = 0%nat /\
    outcome r <> Exited /\
    trace r = if signerKind === KIND.legacy
              then [Called (GetMultisigInstance providerUrl newOwner)]
              else [].
Proof.
  intros W h w signerKind providerUrl newOwner Hkind r. subst r.
  unfold getSignerData. rewrite (strict_eq_false _ _ Hkind).
  destruct (signerKind === KIND.legacy); cbn.
  - next_reply; repeat split; auto; discriminate.
  - repeat split; auto; discriminate.
Qed.

Lemma getSignerData_other_kinds_are_quiet_witness :
  let r := run mock (getSignerData KIND.legacy "http://node" "0xmultisig") world0 in
  existsb is_log (trace r) = false /\
  nonce_fetches (trace r) = 0%nat /\
  outcome r <> Exited /\
  trace r = [Called (GetMultisigInstance "http://node" "0xmultisig")].
Proof.
  apply (getSignerData_other_kinds_are_quiet MockWorld mock world0 KIND.legacy
           "http://node" "0xmultisig").
  discriminate.
Defined.

(** X3. A rejected sequence-number fetch is not the "Cannot access safe"
    case: the rejection propagates to the caller, nothing is printed and the
    process does not exit. *)
Theorem getSignerData_safe_rejection_propagates :
  forall (W : Type) (h : Handler W) (w w1 w2 : W) (providerUrl newOwner : string)
         (safe : Contract) (e : Error),
    h _ (GetSafeInstance providerUrl newOwner) w = (Ok safe, w1) ->
    h _ (GetSafeNonce safe) w1 = (Raise e, w2) ->
    let r := run h (getSignerData KIND.safe providerUrl newOwner) w in
    outcome r = Thrown e /\
    existsb is_log (trace r) = false /\
    ~ BackendUnreachable r /\
    trace r = [ Called (GetSafeInstance providerUrl newOwner);
                Called (GetSafeNonce safe) ].
Proof.
  intros W h w w1 w2 providerUrl newOwner safe e Hinstance Hnonce r. subst r.
  unfold getSignerData, BackendUnreachable.
  change (KIND.safe === KIND.safe) with true. cbn.
  rewrite Hinstance. cbn. rewrite Hnonce. cbn.
  repeat split; auto. intros [Hexit _]. discriminate.
Qed.

Lemma getSignerData_safe_rejection_propagates_witness :
  let r := run mock_offline (getSignerData KIND.safe "http://node" "0xsafe") world0 in
  outcome r = Thrown (Rejected "network error") /\
  existsb is_log (trace r) = false /\
  ~ BackendUnreachable r /\
  trace r = [ Called (GetSafeInstance "http://node" "0xsafe");
              Called (GetSafeNonce (mkContract "0xsafe")) ].
Proof.
  exact (getSignerData_safe_rejection_propagates MockWorld mock_offline world0
           world0 world0 "http://node" "0xsafe" (mkContract "0xsafe")
           (Rejected "network error") eq_refl eq_refl).
Defined.

(** ** [getStagedTransactions] *)

(** X4. Listing for ['SAFE'] on a handle without a Safe contract throws a
    [TypeError] before any collaborator is called, whereas listing for
    ['LEGACY'] on a handle without a multisig contract throws nothing by
    itself: it hands [undefined] to [getMultisigTxCount]. *)
Theorem getStagedTransactions_on_foreign_handle :
  forall (W : Type) (h : Handler W) (w : W) (signerData : SignerData)
         (network : string),
    protocolDaoContract signerData = None ->
    multisigContract signerData = None ->
    run h (getStagedTransactions KIND.safe signerData network) w
      = mkRun (Thrown (TypeError "Cannot read property 'address' of undefined"))
          w []
    /\
    hd_error (trace (run h (getStagedTransactions KIND.legacy signerData network) w))
      = Some (Called (GetMultisigTxCount None)).
Proof.
  intros W h w signerData network Hsafe Hmultisig.
  unfold getStagedTransactions, protocolDaoContract_address.
  rewrite Hsafe, Hmultisig.
  change (KIND.safe === KIND.safe) with true.
  change (KIND.legacy === KIND.safe) with false.
  change (KIND.legacy === KIND.legacy) with true. cbn.
  split; [reflexivity|].
  next_reply; reflexivity.
Qed.

Lemma getStagedTransactions_on_foreign_handle_witness :
  run mock (getStagedTransactions KIND.safe emptySignerData "mainnet") world0
    = mkRun (Thrown (TypeError "Cannot read property 'address' of undefined"))
        world0 []
  /\
  hd_error (trace (run mock (getStagedTransactions KIND.legacy emptySignerData
                               "mainnet") world0))
    = Some (Called (GetMultisigTxCount None)).
Proof.
  apply (getStagedTransactions_on_foreign_handle MockWorld mock world0
           emptySignerData "mainnet"); reflexivity.
Defined.

(** X5. Building and listing compose for ['SAFE']: on a handle returned by
    [getSignerData], listing never throws by itself.  It makes the one query
    [getSafeTransactions] for the address of the contract that
    [getSafeInstance] gave for the same provider and owner, and returns the
    answer as it is, or propagates the rejection. *)
Theorem getStagedTransactions_after_getSignerData :
  forall (W : Type) (h : Handler W) (w w' : W) (providerUrl newOwner : string)
         (signerData : SignerData) (t : list Event),
    run h (getSignerData KIND.safe providerUrl newOwner) w
      = mkRun (Returned signerData) w' t ->
    exists (safe : Contract) (w1 : W),
      h _ (GetSafeInstance providerUrl newOwner) w = (Ok safe, w1) /\
      forall (network : string) (v : W),
        run h (getStagedTransactions KIND.safe signerData network) v
        = match h _ (GetSafeTransactions network (address safe)) v with
          | (Ok txs, v') =>
              mkRun (Returned (Some txs)) v'
                [Called (GetSafeTransactions network (address safe))]
          | (Raise e, v') =>
              mkRun (Thrown e) v'
                [Called (GetSafeTransactions network (address safe))]
          end.
Proof.
  intros W h w w' providerUrl newOwner signerData t Hrun.
  unfold getSignerData in Hrun.
  change (KIND.safe === KIND.safe) with true in Hrun. cbn in Hrun.
  destruct (h _ (GetSafeInstance providerUrl newOwner) w) as [[safe|e] w1] eqn:Hsafe;
    cbn in Hrun; [|discriminate].
  destruct (h _ (GetSafeNonce safe) w1) as [[fetched|e] w2]; cbn in Hrun;
    [|discriminate].
  destruct (truthy fetched); cbn in Hrun; [|discriminate].
  inversion Hrun; subst.
  exists safe, w1. split; [reflexivity|].
  intros network v. unfold getStagedTransactions, protocolDaoContract_address.
  change (KIND.safe === KIND.safe) with true.
  change (KIND.safe === KIND.legacy) with false. cbn.
  destruct (h _ (GetSafeTransactions network (address safe)) v) as [[txs|e] v'];
    reflexivity.
Qed.

Lemma getStagedTransactions_after_getSignerData_witness :
  exists (safe : Contract) (w1 : MockWorld),
    mock _ (GetSafeInstance "http://node" "0xsafe") world0 = (Ok safe, w1) /\
    forall (network : string) (v : MockWorld),
      run mock (getStagedTransactions KIND.safe safe_handle0 network) v
      = match mock _ (GetSafeTransactions network (address safe)) v with
        | (Ok txs, v') =>
            mkRun (Returned (Some txs)) v'
              [Called (GetSafeTransactions network (address safe))]
        | (Raise e, v') =>
            mkRun (Thrown e) v'
              [Called (GetSafeTransactions network (address safe))]
        end.
Proof.
  apply (getStagedTransactions_after_getSignerData MockWorld mock world0 world0
           "http://node" "0xsafe" safe_handle0
           [ Called (GetSafeInstance "http://node" "0xsafe");
             Called (GetSafeNonce (mkContract "0xsafe"));
             Logged (ConsoleLog yellow
                       "Using Protocol DAO Safe contract at 0xsafe") ]).
  reflexivity.
Defined.

(** X6. Listing for ['LEGACY'] asks the handle's contract for its transaction
    count and then for the identifiers from 0 up to exactly that count, with
    [pending: true] and [executed: false]; it returns the identifiers as they
    come, in a world changed only by those two calls. *)
Theorem getStagedTransactions_legacy_range :
  forall (W : Type) (h : Handler W) (w w1 w2 : W) (signerData : SignerData)
         (network : string) (lastTx : Z) (txs : list PendingTx),
    h _ (GetMultisigTxCount (multisigContract signerData)) w = (Ok lastTx, w1) ->
    h _ (GetMultisigTransactionIds network (multisigContract signerData)
           0 lastTx true false) w1 = (Ok txs, w2) ->
    run h (getStagedTransactions KIND.legacy signerData network) w
      = mkRun (Returned (Some txs)) w2
          [ Called (GetMultisigTxCount (multisigContract signerData));
            Called (GetMultisigTransactionIds network (multisigContract signerData)
                      0 lastTx true false) ].
Proof.
  intros W h w w1 w2 signerData network lastTx txs Hcount Hids.
  unfold getStagedTransactions.
  change (KIND.legacy === KIND.safe) with false.
  change (KIND.legacy === KIND.legacy) with true. cbn.
  rewrite Hcount. cbn. rewrite Hids. reflexivity.
Qed.

Lemma getStagedTransactions_legacy_range_witness :
  run mock (getStagedTransactions KIND.legacy legacy_handle0 "mainnet") legacy_world0
    = mkRun (Returned (Some (legacy_pending legacy_world0))) legacy_world0
        [ Called (GetMultisigTxCount (Some (mkContract "0xmultisig")));
          Called (GetMultisigTransactionIds "mainnet"
                    (Some (mkContract "0xmultisig")) 0 2 true false) ].
Proof.
  apply (getStagedTransactions_legacy_range MockWorld mock legacy_world0
           legacy_world0 legacy_world0 legacy_handle0 "mainnet" 2
           (legacy_pending legacy_world0)); reflexivity.
Defined.

(** X7. Building a handle and listing are read-only towards the chain and
    the coordination service: for every kind, handle and state of the outside
    world, neither function sends or awaits a transaction, submits to the
    multisig, signs or saves anything. *)
Theorem setup_and_listing_are_read_only :
  forall (W : Type) (h : Handler W) (w : W)
         (signerKind providerUrl newOwner network : string)
         (signerData : SignerData),
    existsb chain_submission
      (trace (run h (getSignerData signerKind providerUrl newOwner) w)) = false /\
    existsb staging_step
      (trace (run h (getSignerData signerKind providerUrl newOwner) w)) = false /\
    existsb chain_submission
      (trace (run h (getStagedTransactions signerKind signerData network) w)) = false /\
    existsb staging_step
      (trace (run h (getStagedTransactions signerKind signerData network) w)) = false.
Proof.
  intros W h w signerKind providerUrl newOwner network signerData.
  assert (Hbuild :
    forall f : Event -> bool,
      f (Called (GetSafeInstance providerUrl newOwner)) = false ->
      (forall safe, f (Called (GetSafeNonce safe)) = false) ->
      (forall m, f (Logged m) = false) ->
      f (Called (GetMultisigInstance providerUrl newOwner)) = false ->
      existsb f (trace (run h (getSignerData signerKind providerUrl newOwner) w))
      = false).
  { intros f Hinstance Hnonce Hlog Hmultisig. unfold getSignerData.
    destruct (signerKind === KIND.safe) eqn:Hsafe.
    - rewrite (safe_is_not_legacy _ Hsafe). cbn.
      next_reply; rewrite ?Hinstance; [|reflexivity].
      next_reply; rewrite ?Hnonce; [|reflexivity].
      destruct (truthy x0); cbn; now rewrite Hlog.
    - destruct (signerKind === KIND.legacy); cbn; [|reflexivity].
      next_reply; now rewrite Hmultisig. }
  assert (Hlist :
    forall f : Event -> bool,
      (forall a, f (Called (GetSafeTransactions network a)) = false) ->
      f (Called (GetMultisigTxCount (multisigContract signerData))) = false ->
      (forall n, f (Called (GetMultisigTransactionIds network
                              (multisigContract signerData) 0 n true false))
                 = false) ->
      existsb f (trace (run h (getStagedTransactions signerKind signerData network) w))
      = false).
  { intros f Hsafetx Hcount Hids.
    unfold getStagedTransactions, protocolDaoContract_address.
    destruct (signerKind === KIND.safe) eqn:Hsafe.
    - rewrite (safe_is_not_legacy _ Hsafe).
      destruct (protocolDaoContract signerData) as [safe|]; cbn; [|reflexivity].
      next_reply; now rewrite Hsafetx.
    - destruct (signerKind === KIND.legacy); cbn; [|reflexivity].
      next_reply; rewrite ?Hcount; [|reflexivity].
      next_reply; now rewrite Hids. }
  repeat split; (apply Hbuild || apply Hlist); intros; reflexivity.
Qed.

(** ** [acceptOwnershipBySigner] *)

(** X8. For ['LEGACY'] the fork flag plays no part: the transaction is
    submitted to the handle's multisig contract with value zero and with the
    gas price and gas limit exactly as supplied (no unit conversion, no
    truthiness test), the receipt is logged, the function returns no value
    and the handle is left as it was. *)
Theorem acceptOwnershipBySigner_legacy_submits :
  forall (W : Type) (h : Handler W) (w w1 : W) (signerData : SignerData)
         (useFork : bool) (network privateKey providerUrl encodedData to : string)
         (wallet : Wallet) (gasLimit : option Z) (gasPrice : string)
         (receipt : Receipt),
    h _ (SubmitMultisigTransaction (multisigContract signerData) network wallet
           to 0 encodedData gasPrice gasLimit) w = (Ok receipt, w1) ->
    run h (acceptOwnershipBySigner KIND.legacy signerData useFork network
             privateKey providerUrl encodedData to wallet gasLimit gasPrice) w
      = mkRun (Returned (None, signerData)) w1
          [ Called (SubmitMultisigTransaction (multisigContract signerData) network
                      wallet to 0 encodedData gasPrice gasLimit);
            Logged (LogTx receipt) ].
Proof.
  intros W h w w1 signerData useFork network privateKey providerUrl encodedData
         to wallet gasLimit gasPrice receipt Hsubmit.
  unfold acceptOwnershipBySigner.
  change (KIND.legacy === KIND.safe) with false.
  change (KIND.legacy === KIND.legacy) with true. cbn.
  rewrite Hsubmit. reflexivity.
Qed.

Lemma acceptOwnershipBySigner_legacy_submits_witness :
  run mock (acceptOwnershipBySigner KIND.legacy legacy_handle0 true "mainnet"
              "0xkey" "http://node" "0xdata" "0xdest" wallet0 (Some 0)
              "not a number") legacy_world0
    = mkRun (Returned (None, legacy_handle0)) legacy_world0
        [ Called (SubmitMultisigTransaction (Some (mkContract "0xmultisig"))
                    "mainnet" wallet0 "0xdest" 0 "0xdata" "not a number" (Some 0));
          Logged (LogTx (mkReceipt "0xmined")) ].
Proof.
  apply (acceptOwnershipBySigner_legacy_submits MockWorld mock legacy_world0
           legacy_world0 legacy_handle0 true "mainnet" "0xkey" "http://node"
           "0xdata" "0xdest" wallet0 (Some 0) "not a number" (mkReceipt "0xmined")).
  reflexivity.
Defined.

(** Case analysis on the route of a submission, then on every reply. *)
Ltac submission_cases signerKind useFork :=
  unfold acceptOwnershipBySigner, staging_route, handle_after;
  destruct (signerKind === KIND.safe); destruct useFork;
  destruct (signerKind === KIND.legacy); cbn;
  repeat next_reply.

(** X9. Whatever the kind, the fork flag, the inputs and the outcome,
    [acceptOwnershipBySigner] changes nothing of the handle but [lastNonce],
    and it changes [lastNonce] only on the staging route. *)
Theorem submission_changes_only_lastNonce :
  forall (W : Type) (h : Handler W) (w : W) (signerKind : string)
         (signerData : SignerData) (useFork : bool)
         (network privateKey providerUrl encodedData to : string) (wallet : Wallet)
         (gasLimit : option Z) (gasPrice : string),
    let after_call :=
      handle_after signerData
        (run h (acceptOwnershipBySigner signerKind signerData useFork network
                  privateKey providerUrl encodedData to wallet gasLimit gasPrice)
           w) in
    protocolDaoContract after_call = protocolDaoContract signerData /\
    multisigContract after_call = multisigContract signerData /\
    stagedTransactions after_call = stagedTransactions signerData /\
    (staging_route signerKind useFork = true \/ after_call = signerData).
Proof.
  intros W h w signerKind signerData useFork network privateKey providerUrl
         encodedData to wallet gasLimit gasPrice after_call.
  subst after_call.
  submission_cases signerKind useFork; repeat split; auto.
Qed.

(** X10. No call of [acceptOwnershipBySigner] both stages and submits: on
    the staging route nothing is sent to the chain, and on every other route
    (Legacy, Direct, unrecognised kinds, fork mode) the coordination service
    is never touched, whatever the collaborators answer. *)
Theorem submission_routes_are_exclusive :
  forall (W : Type) (h : Handler W) (w : W) (signerKind : string)
         (signerData : SignerData) (useFork : bool)
         (network privateKey providerUrl encodedData to : string) (wallet : Wallet)
         (gasLimit : option Z) (gasPrice : string),
    let r := run h (acceptOwnershipBySigner signerKind signerData useFork network
                      privateKey providerUrl encodedData to wallet gasLimit
                      gasPrice) w in
    if staging_route signerKind useFork
    then existsb chain_submission (trace r) = false
    else existsb staging_step (trace r) = false /\ staged_nonces (trace r) = [].
Proof.
  intros W h w signerKind signerData useFork network privateKey providerUrl
         encodedData to wallet gasLimit gasPrice r.
  subst r.
  submission_cases signerKind useFork; repeat split; auto.
Qed.

(** X11. A receipt is logged exactly when a submission outside the staging
    route succeeds, and then exactly one: a failed submission logs nothing,
    and staging never logs a receipt. *)
Theorem receipt_logged_iff_chain_success :
  forall (W : Type) (h : Handler W) (w : W) (signerKind : string)
         (signerData : SignerData) (useFork : bool)
         (network privateKey providerUrl encodedData to : string) (wallet : Wallet)
         (gasLimit : option Z) (gasPrice : string),
    let r := run h (acceptOwnershipBySigner signerKind signerData useFork network
                      privateKey providerUrl encodedData to wallet gasLimit
                      gasPrice) w in
    List.length (logged_receipts (trace r))
    = if staging_route signerKind useFork
      then 0%nat
      else match outcome r with
           | Returned _ => 1%nat
           | _ => 0%nat
           end.
Proof.
  intros W h w signerKind signerData useFork network privateKey providerUrl
         encodedData to wallet gasLimit gasPrice r.
  subst r.
  submission_cases signerKind useFork; reflexivity.
Qed.

(** X12. At most one transaction is saved to the coordination service per
    call, and when one is saved its hash is the one hash that was handed to
    [getSafeSignature] during that call: nothing is saved whose hash was not
    put up for signing. *)
Theorem saved_hash_was_signed :
  forall (W : Type) (h : Handler W) (w : W) (signerKind : string)
         (signerData : SignerData) (useFork : bool)
         (network privateKey providerUrl encodedData to : string) (wallet : Wallet)
         (gasLimit : option Z) (gasPrice : string),
    let r := run h (acceptOwnershipBySigner signerKind signerData useFork network
                      privateKey providerUrl encodedData to wallet gasLimit
                      gasPrice) w in
    saved_hashes (trace r) = [] \/
    exists txHash : string,
      signed_hashes (trace r) = [txHash] /\ saved_hashes (trace r) = [txHash].
Proof.
  intros W h w signerKind signerData useFork network privateKey providerUrl
         encodedData to wallet gasLimit gasPrice r.
  subst r.
  submission_cases signerKind useFork;
    solve [ left; reflexivity | right; eexists; split; reflexivity ].
Qed.

(** X13. On the direct path a gas price that [parseUnits] rejects aborts the
    submission before anything is sent: the rejection propagates, the wallet
    is never asked to send and nothing is logged. *)
Theorem unparsable_gas_price_sends_nothing :
  forall (W : Type) (h : Handler W) (w w1 : W) (signerKind : string)
         (signerData : SignerData) (useFork : bool)
         (network privateKey providerUrl encodedData to : string) (wallet : Wallet)
         (gasLimit : option Z) (gasPrice : string) (e : Error),
    staging_route signerKind useFork = false ->
    signerKind <> KIND.legacy ->
    h _ (ParseUnits gasPrice "gwei") w = (Raise e, w1) ->
    run h (acceptOwnershipBySigner signerKind signerData useFork network privateKey
             providerUrl encodedData to wallet gasLimit gasPrice) w
      = mkRun (Thrown e) w1 [Called (ParseUnits gasPrice "gwei")].
Proof.
  intros W h w w1 signerKind signerData useFork network privateKey providerUrl
         encodedData to wallet gasLimit gasPrice e Hroute Hkind Hparse.
  unfold acceptOwnershipBySigner. unfold staging_route in Hroute.
  rewrite Hroute, (strict_eq_false _ _ Hkind). cbn. now rewrite Hparse.
Qed.

Lemma unparsable_gas_price_sends_nothing_witness :
  run mock (acceptOwnershipBySigner KIND.eoa emptySignerData false "mainnet"
              "0xkey" "http://node" "0xdata" "0xdest" wallet0 None "twenty") world0
    = mkRun (Thrown (Rejected "invalid decimal value")) world0
        [Called (ParseUnits "twenty" "gwei")].
Proof.
  apply (unparsable_gas_price_sends_nothing MockWorld mock world0 world0 KIND.eoa
           emptySignerData false "mainnet" "0xkey" "http://node" "0xdata" "0xdest"
           wallet0 None "twenty" (Rejected "invalid decimal value")).
  - reflexivity.
  - discriminate.
  - reflexivity.
Defined.

(** X14. On the direct path a gas limit at or beyond the safe-integer bound
    makes [BigNumber.from] throw after the gas price was converted: the
    numeric fault propagates, no [gasLimit] is attached, the wallet is never
    asked to send and nothing is logged. *)
Theorem oversized_gas_limit_sends_nothing :
  forall (W : Type) (h : Handler W) (w w1 : W) (signerKind : string)
         (signerData : SignerData) (useFork : bool)
         (network privateKey providerUrl encodedData to : string) (wallet : Wallet)
         (limit : Z) (gasPrice : string) (gasPriceWei : BigNumber),
    staging_route signerKind useFork = false ->
    signerKind <> KIND.legacy ->
    MAX_SAFE <= limit \/ limit <= - MAX_SAFE ->
    h _ (ParseUnits gasPrice "gwei") w = (Ok gasPriceWei, w1) ->
    run h (acceptOwnershipBySigner signerKind signerData useFork network privateKey
             providerUrl encodedData to wallet (Some limit) gasPrice) w
      = mkRun (Thrown (EthersError "NUMERIC_FAULT")) w1
          [Called (ParseUnits gasPrice "gwei")].
Proof.
  intros W h w w1 signerKind signerData useFork network privateKey providerUrl
         encodedData to wallet limit gasPrice gasPriceWei Hroute Hkind Hrange
         Hparse.
  unfold acceptOwnershipBySigner. unfold staging_route in Hroute.
  assert (Hnonzero : (limit =? 0) = false).
  { apply Z.eqb_neq. unfold MAX_SAFE in Hrange. lia. }
  rewrite Hroute, (strict_eq_false _ _ Hkind). cbn. rewrite Hparse. cbn.
  rewrite Hnonzero. cbn.
  rewrite (BigNumber_from_overflow limit Hrange). reflexivity.
Qed.

Lemma oversized_gas_limit_sends_nothing_witness :
  run mock (acceptOwnershipBySigner KIND.eoa emptySignerData false "mainnet"
              "0xkey" "http://node" "0xdata" "0xdest" wallet0
              (Some 9007199254740991) "20") world0
    = mkRun (Thrown (EthersError "NUMERIC_FAULT")) world0
        [Called (ParseUnits "20" "gwei")].
Proof.
  apply (oversized_gas_limit_sends_nothing MockWorld mock world0 world0 KIND.eoa
           emptySignerData false "mainnet" "0xkey" "http://node" "0xdata" "0xdest"
           wallet0 9007199254740991 "20" 20000000000).
  - reflexivity.
  - discriminate.
  - left. unfold MAX_SAFE. lia.
  - reflexivity.
Defined.
